(** * GroupChat: view resolution, admin decisions and the message feed

    A shallow embedding of the client of the membership-gated group chat:
    - [App.determineView]              (src/App.tsx),
    - [AdminDashboard.handleDecision]  (src/components/AccessRequestForm.tsx),
    - [ChatInterface] feed and senders (src/components/CreateProfile.tsx),
    over the tables of the schema and the row types of src/types.ts.

    Async functions become computations in a state-and-exception monad over
    a [World]: the hosted store, the network's behaviour for the calls to
    come, the calls issued so far, the console, the alerts shown, and the
    React state of the component. *)

From Stdlib Require Import String Ascii List Bool Arith NArith Lia.
From Stdlib Require Import Sorting.Sorted Sorting.Permutation DecimalString.
Import ListNotations.
Open Scope string_scope.
Open Scope list_scope.

Set Implicit Arguments.

(* ================================================================== *)
(** * Row types (src/types.ts) *)
(* ================================================================== *)

(** [UserRole = 'admin' | 'member'] *)
Module UserRole.
Inductive t := admin | member.
Definition eqb (a b : t) : bool :=
  match a, b with
  | admin, admin | member, member => true
  | _, _ => false
  end.
End UserRole.

(** [RequestStatus = 'pending' | 'approved' | 'rejected'] *)
Module RequestStatus.
Inductive t := pending | approved | rejected.
Definition eqb (a b : t) : bool :=
  match a, b with
  | pending, pending | approved, approved | rejected, rejected => true
  | _, _ => false
  end.
End RequestStatus.

(** The [type] of a message: ['text' | 'image' | 'audio']. *)
Module MessageType.
Inductive t := text | image | audio.
End MessageType.

(** [created_at] columns are [timestamptz]; the client only passes them on
    and the store orders by them, so they are instants counted in [N]. *)
Definition Timestamp := N.

Module AccessRequest.
Record t := mk {
  id : string;
  user_id : string;
  name : string;
  reason : string;
  status : RequestStatus.t;
  created_at : Timestamp
}.
(** [{ ...r, status }] *)
Definition with_status (s : RequestStatus.t) (r : t) : t :=
  mk (id r) (user_id r) (name r) (reason r) s (created_at r).
End AccessRequest.

(** [dp_url] is declared [string], the column is nullable and the feed's
    placeholder stores [null] in it: [None] is [null]. *)
Module Profile.
Record t := mk {
  id : string;
  user_id : string;
  username : string;
  bio : string;
  dp_url : option string
}.
End Profile.

(** A message; [profiles] is the joined field, absent ([None]) in a table
    row and in the payload of an insert event. *)
Module Message.
Record t := mk {
  id : string;
  sender_id : string;
  type : MessageType.t;
  content : string;
  created_at : Timestamp;
  profiles : option Profile.t
}.
(** [{ ...m, profiles: p }] *)
Definition with_profiles (p : option Profile.t) (m : t) : t :=
  mk (id m) (sender_id m) (type m) (content m) (created_at m) p.
End Message.

(** A row of [roles], with the columns the client reads and writes
    ([user_id] unique, [role]). *)
Module RoleRow.
Record t := mk {
  user_id : string;
  role : UserRole.t
}.
Definition with_role (r : UserRole.t) (row : t) : t := mk (user_id row) r.
End RoleRow.

(* ================================================================== *)
(** * The hosted store and the calls the client makes *)
(* ================================================================== *)

(** The four tables of the schema and the [chat-media] bucket (path and
    payload of each object).  [clock] and [uuids] feed the column defaults
    [now()] and [gen_random_uuid()]. *)
Record Db := mkDb {
  profiles : list Profile.t;
  access_requests : list AccessRequest.t;
  roles : list RoleRow.t;
  messages : list Message.t;
  bucket : list (string * string);
  clock : Timestamp;
  uuids : N
}.

Definition set_access_requests (l : list AccessRequest.t) (d : Db) : Db :=
  mkDb (profiles d) l (roles d) (messages d) (bucket d) (clock d) (uuids d).
Definition set_roles (l : list RoleRow.t) (d : Db) : Db :=
  mkDb (profiles d) (access_requests d) l (messages d) (bucket d) (clock d) (uuids d).
Definition set_messages (l : list Message.t) (d : Db) : Db :=
  mkDb (profiles d) (access_requests d) (roles d) l (bucket d) (clock d) (uuids d).
Definition set_bucket (l : list (string * string)) (d : Db) : Db :=
  mkDb (profiles d) (access_requests d) (roles d) (messages d) l (clock d) (uuids d).
Definition tick (d : Db) : Db :=
  mkDb (profiles d) (access_requests d) (roles d) (messages d) (bucket d)
       (N.succ (clock d)) (N.succ (uuids d)).

(** What an awaited call resolves to: the [{ data, error }] object of the
    client library. *)
Record Response (A : Type) := mkResponse {
  data : option A;
  error : option string
}.

Definition ok {A} (a : A) : Response A := mkResponse (Some a) None.
Definition no_data {A} : Response A := mkResponse None None.
Definition failed {A} (e : string) : Response A := mkResponse None (Some e).

(** How the network treats one call: the store serves it; or the call
    resolves to [{ data: null, error }] (store unreachable, request refused,
    malformed response); or the awaited promise rejects. *)
Inductive Fault :=
| Served
| Failed (e : string)
| Rejected (e : string).

(** The calls of the source, as recorded in the world's trace. *)
Inductive Request :=
| SelectAdminRole (userId : string)
| SelectProfile (userId : string)
| SelectProfileSingle (userId : string)
| SelectAccessRequest (userId : string)
| SelectDecidedRequests
| SelectProfilesIn (userIds : list string)
| UpdateRequestStatus (id : string) (status : RequestStatus.t)
| UpsertRole (userId : string) (role : UserRole.t)
| DeleteRole (userId : string)
| SelectMessages
| InsertMessage (sender : string) (type : MessageType.t) (content : string)
| StorageUpload (path : string)
| SelectPendingRequests
| InsertAccessRequest (userId name reason : string)
| InsertProfile (userId username bio dpUrl : string).

(** ** Row selection *)

(** [.maybeSingle()]: no row is [null] data, one row is that row, several
    rows are an error. *)
Definition maybeSingle {A} (rows : list A) : Response A :=
  match rows with
  | [] => no_data
  | [r] => ok r
  | _ :: _ :: _ => failed "JSON object requested, multiple (or no) rows returned"
  end.

(** [.single()]: exactly one row, anything else is an error. *)
Definition single {A} (rows : list A) : Response A :=
  match rows with
  | [r] => ok r
  | _ => failed "JSON object requested, multiple (or no) rows returned"
  end.

(** [.order(col)]: insertion of each row into the ordered rest. *)
Fixpoint insert_by {A} (le : A -> A -> bool) (x : A) (l : list A) : list A :=
  match l with
  | [] => [x]
  | y :: l' => if le x y then x :: y :: l' else y :: insert_by le x l'
  end.

Definition order_by {A} (le : A -> A -> bool) (l : list A) : list A :=
  fold_right (insert_by le) [] l.

(** [roles.select('role').eq('user_id', u).eq('role', 'admin')] *)
Definition admin_rows (u : string) (d : Db) : list UserRole.t :=
  map RoleRow.role
      (filter (fun r => String.eqb (RoleRow.user_id r) u
                        && UserRole.eqb (RoleRow.role r) UserRole.admin)
              (roles d)).

(** [profiles.select('*').eq('user_id', u)] *)
Definition profile_rows (u : string) (d : Db) : list Profile.t :=
  filter (fun p => String.eqb (Profile.user_id p) u) (profiles d).

(** [access_requests.select('*').eq('user_id', u)] *)
Definition request_rows (u : string) (d : Db) : list AccessRequest.t :=
  filter (fun r => String.eqb (AccessRequest.user_id r) u) (access_requests d).

(** [access_requests.select('*').neq('status', 'pending')
      .order('created_at', { ascending: false })] *)
Definition decided_requests (d : Db) : list AccessRequest.t :=
  order_by (fun a b => N.leb (AccessRequest.created_at b) (AccessRequest.created_at a))
           (filter (fun r => negb (RequestStatus.eqb (AccessRequest.status r)
                                                     RequestStatus.pending))
                   (access_requests d)).

(** [profiles.select('*').in('user_id', ids)] *)
Definition profiles_in (ids : list string) (d : Db) : list Profile.t :=
  filter (fun p => existsb (String.eqb (Profile.user_id p)) ids) (profiles d).

(** The sender's profile embedded in a message row: the embedded [profiles] resource. *)
Definition join_profile (d : Db) (m : Message.t) : Message.t :=
  Message.with_profiles
    (find (fun p => String.eqb (Profile.user_id p) (Message.sender_id m)) (profiles d))
    m.

(** [messages.select(star, profiles(star)).order('created_at', { ascending: true })] *)
Definition messages_with_profiles (d : Db) : list Message.t :=
  order_by (fun a b => N.leb (Message.created_at a) (Message.created_at b))
           (map (join_profile d) (messages d)).

(** ** Mutations *)

(** [access_requests.update({ status }).eq('id', id)] *)
Definition update_status (id : string) (s : RequestStatus.t) (d : Db) : Db :=
  set_access_requests
    (map (fun r => if String.eqb (AccessRequest.id r) id
                   then AccessRequest.with_status s r else r)
         (access_requests d))
    d.

(** [roles.upsert([{ user_id, role }], { onConflict: 'user_id' })]: the row
    that conflicts on [user_id] takes the new role, otherwise the row is
    inserted. *)
Definition upsert_row (u : string) (r : UserRole.t) (l : list RoleRow.t)
    : list RoleRow.t :=
  if existsb (fun row => String.eqb (RoleRow.user_id row) u) l
  then map (fun row => if String.eqb (RoleRow.user_id row) u
                       then RoleRow.with_role r row else row)
           l
  else l ++ [RoleRow.mk u r].

Definition upsert_role (u : string) (r : UserRole.t) (d : Db) : Db :=
  set_roles (upsert_row u r (roles d)) d.

(** [roles.delete().eq('user_id', u)] *)
Definition delete_role (u : string) (d : Db) : Db :=
  set_roles (filter (fun row => negb (String.eqb (RoleRow.user_id row) u)) (roles d)) d.

(** Decimal rendering of a number inside a template string. *)
Definition decimal (n : N) : string := NilEmpty.string_of_uint (N.to_uint n).

(** [messages.insert([{ sender_id, type, content }])]: [id] and
    [created_at] take the column defaults. *)
Definition insert_message (sender : string) (ty : MessageType.t) (c : string)
    (d : Db) : Db :=
  tick (set_messages
          (messages d ++
           [Message.mk ("uuid-" ++ decimal (uuids d))%string sender ty c (clock d) None])
          d).

(** [storage.from('chat-media').upload(path, payload)] *)
Definition store_object (path payload : string) (d : Db) : Db :=
  set_bucket (bucket d ++ [(path, payload)]) d.

(** ** Further selections and insertions *)

Definition set_profiles (l : list Profile.t) (d : Db) : Db :=
  mkDb l (access_requests d) (roles d) (messages d) (bucket d) (clock d) (uuids d).

(** [access_requests.select('*').eq('status', 'pending')
      .order('created_at', { ascending: false })] *)
Definition pending_requests (d : Db) : list AccessRequest.t :=
  order_by (fun a b => N.leb (AccessRequest.created_at b) (AccessRequest.created_at a))
           (filter (fun r => RequestStatus.eqb (AccessRequest.status r)
                                               RequestStatus.pending)
                   (access_requests d)).

(** [access_requests.insert([{ user_id, name, reason, status: 'pending' }])]:
    [id] and [created_at] take the column defaults; the table has no
    uniqueness on [user_id]. *)
Definition insert_access_request (u name reason : string) (d : Db) : Db :=
  tick (set_access_requests
          (access_requests d ++
           [AccessRequest.mk ("uuid-" ++ decimal (uuids d))%string u name reason
                             RequestStatus.pending (clock d)])
          d).

(** [profiles.insert([{ user_id, username, bio, dp_url }])]: the store
    refuses a second row for a user ([user_id] is unique) and answers with
    an error. *)
Definition insert_profile (u username bio dpUrl : string) (d : Db)
    : Db * Response unit :=
  if existsb (fun p => String.eqb (Profile.user_id p) u) (profiles d)
  then (d, failed "duplicate key value violates unique constraint")
  else (tick (set_profiles
                (profiles d ++
                 [Profile.mk ("uuid-" ++ decimal (uuids d))%string u username bio
                             (Some dpUrl)])
                d),
        no_data).

(* ================================================================== *)
(** * Worlds and the monad of async functions *)
(* ================================================================== *)

(** [net] is the behaviour of the network for the calls to come, one entry
    per call, a call beyond its end being served; [trace] lists the calls
    issued; [console] and [alerts] collect [console.error] and [alert];
    [ui] is the component's React state. *)
Record World (U : Type) := mkWorld {
  db : Db;
  net : list Fault;
  trace : list Request;
  console : list string;
  alerts : list string;
  ui : U
}.

(** An async function either returns or throws; the state it reached stays
    in both cases. *)
Inductive Result (S A : Type) :=
| Val (a : A) (s : S)
| Exn (e : string) (s : S).

Arguments Val {S A} a s.
Arguments Exn {S A} e s.

Definition M (S A : Type) : Type := S -> Result S A.

Definition state_of {S A} (r : Result S A) : S :=
  match r with
  | Val _ s => s
  | Exn _ s => s
  end.

Definition ret {S A} (a : A) : M S A := fun s => Val a s.

Definition bind {S A B} (c : M S A) (k : A -> M S B) : M S B :=
  fun s =>
    match c s with
    | Val a s' => k a s'
    | Exn e s' => Exn e s'
    end.

Definition throw {S A} (e : string) : M S A := fun s => Exn e s.

(** [try { body } catch (e) { handler }] *)
Definition try_catch {S A} (body : M S A) (handler : string -> M S A) : M S A :=
  fun s =>
    match body s with
    | Val a s' => Val a s'
    | Exn e s' => handler e s'
    end.

(** [try { body } finally { fin }] *)
Definition try_finally {S A} (body : M S A) (fin : M S unit) : M S A :=
  fun s =>
    match body s with
    | Val a s' =>
        match fin s' with
        | Val _ s'' => Val a s''
        | Exn e s'' => Exn e s''
        end
    | Exn e s' =>
        match fin s' with
        | Val _ s'' => Exn e s''
        | Exn e' s'' => Exn e' s''
        end
    end.

Declare Scope async_scope.
Delimit Scope async_scope with async.
Notation "x <- c ;; k" := (bind c (fun x => k))
  (at level 61, c at next level, right associativity) : async_scope.
Notation "c ;; k" := (bind c (fun _ => k))
  (at level 61, right associativity) : async_scope.
Open Scope async_scope.

Section WorldOps.
Context {U : Type}.

Definition modify_ui (f : U -> U) : M (World U) unit :=
  fun w => Val tt (mkWorld (db w) (net w) (trace w) (console w) (alerts w) (f (ui w))).

Definition get_ui : M (World U) U := fun w => Val (ui w) w.

(** [console.error(msg, ...)] *)
Definition console_error (msg : string) : M (World U) unit :=
  fun w => Val tt (mkWorld (db w) (net w) (trace w) (console w ++ [msg]) (alerts w) (ui w)).

(** [alert(msg)] *)
Definition alert (msg : string) : M (World U) unit :=
  fun w => Val tt (mkWorld (db w) (net w) (trace w) (console w) (alerts w ++ [msg]) (ui w)).

(** One awaited call to the store: it is recorded, the network decides
    its fate (the head of [net], [Served] once [net] is used up), and only
    a served call reaches the tables. *)
Definition call {A} (rq : Request) (serve : Db -> Db * Response A)
    : M (World U) (Response A) :=
  fun w =>
    let n := tl (net w) in
    let t := trace w ++ [rq] in
    match hd Served (net w) with
    | Served =>
        Val (snd (serve (db w)))
            (mkWorld (fst (serve (db w))) n t (console w) (alerts w) (ui w))
    | Failed e => Val (failed e) (mkWorld (db w) n t (console w) (alerts w) (ui w))
    | Rejected e => Exn e (mkWorld (db w) n t (console w) (alerts w) (ui w))
    end.

Definition query {A} (rq : Request) (rows : Db -> Response A)
    : M (World U) (Response A) :=
  call rq (fun d => (d, rows d)).

Definition mutate (rq : Request) (f : Db -> Db) : M (World U) (Response unit) :=
  call rq (fun d => (f d, no_data)).

Definition selectAdminRole (userId : string) :=
  query (SelectAdminRole userId) (fun d => maybeSingle (admin_rows userId d)).
Definition selectProfile (userId : string) :=
  query (SelectProfile userId) (fun d => maybeSingle (profile_rows userId d)).
Definition selectProfileSingle (userId : string) :=
  query (SelectProfileSingle userId) (fun d => single (profile_rows userId d)).
Definition selectAccessRequest (userId : string) :=
  query (SelectAccessRequest userId) (fun d => maybeSingle (request_rows userId d)).
Definition selectDecidedRequests :=
  query SelectDecidedRequests (fun d => ok (decided_requests d)).
Definition selectProfilesIn (ids : list string) :=
  query (SelectProfilesIn ids) (fun d => ok (profiles_in ids d)).
Definition selectMessages :=
  query SelectMessages (fun d => ok (messages_with_profiles d)).
Definition updateRequestStatus (id : string) (s : RequestStatus.t) :=
  mutate (UpdateRequestStatus id s) (update_status id s).
Definition upsertRole (userId : string) (r : UserRole.t) :=
  mutate (UpsertRole userId r) (upsert_role userId r).
Definition deleteRole (userId : string) :=
  mutate (DeleteRole userId) (delete_role userId).
Definition insertMessage (sender : string) (ty : MessageType.t) (c : string) :=
  mutate (InsertMessage sender ty c) (insert_message sender ty c).
(** [upload] resolves to [{ data: { path }, error }]. *)
Definition storageUpload (path payload : string) : M (World U) (Response string) :=
  call (StorageUpload path) (fun d => (store_object path payload d, ok path)).
Definition selectPendingRequests :=
  query SelectPendingRequests (fun d => ok (pending_requests d)).
Definition insertAccessRequest (userId name reason : string) :=
  mutate (InsertAccessRequest userId name reason)
         (insert_access_request userId name reason).
Definition insertProfile (userId username bio dpUrl : string)
    : M (World U) (Response unit) :=
  call (InsertProfile userId username bio dpUrl)
       (insert_profile userId username bio dpUrl).
End WorldOps.

(** A callback of the parent run from a child component: the child's world
    pairs its own state with the parent's, and the callback works on the
    parent's half. *)
Definition in_parent {C P A} (c : M (World P) A) : M (World (C * P)) A :=
  fun w =>
    match c (mkWorld (db w) (net w) (trace w) (console w) (alerts w) (snd (ui w))) with
    | Val a w' =>
        Val a (mkWorld (db w') (net w') (trace w') (console w') (alerts w')
                       (fst (ui w), ui w'))
    | Exn e w' =>
        Exn e (mkWorld (db w') (net w') (trace w') (console w') (alerts w')
                       (fst (ui w), ui w'))
    end.

(* ================================================================== *)
(** * App: the view resolver (src/App.tsx) *)
(* ================================================================== *)

(** [AppState = 'loading' | 'auth' | 'request' | 'pending' | 'rejected'
              | 'profile' | 'chat' | 'admin'] *)
Module AppState.
Inductive t := loading | auth | request | pending | rejected | profile | chat | admin.
Definition eqb (a b : t) : bool :=
  match a, b with
  | loading, loading | auth, auth | request, request | pending, pending
  | rejected, rejected | profile, profile | chat, chat | admin, admin => true
  | _, _ => false
  end.
End AppState.

Module App.
(** The [useState] cells of [App]; [session] holds the user id of the
    session. *)
Record State := mkState {
  session : option string;
  view : AppState.t;
  userProfile : option Profile.t;
  userRole : option UserRole.t
}.

Definition setSession (s : option string) : M (World State) unit :=
  modify_ui (fun st => mkState s (view st) (userProfile st) (userRole st)).
Definition setView (v : AppState.t) : M (World State) unit :=
  modify_ui (fun st => mkState (session st) v (userProfile st) (userRole st)).
(** [setView((prev) => f(prev))] *)
Definition updateView (f : AppState.t -> AppState.t) : M (World State) unit :=
  modify_ui (fun st => mkState (session st) (f (view st)) (userProfile st) (userRole st)).
Definition setUserProfile (p : option Profile.t) : M (World State) unit :=
  modify_ui (fun st => mkState (session st) (view st) p (userRole st)).
Definition setUserRole (r : option UserRole.t) : M (World State) unit :=
  modify_ui (fun st => mkState (session st) (view st) (userProfile st) r).

(** The temp profile object for admins without a real profile. *)
Definition adminTempProfile (userId : string) : Profile.t :=
  Profile.mk "admin-temp" userId "Admin" "System Administrator" (Some "").

(** [determineView(userId)].  [view0] is the [view] of the closure, the
    value the state had in the render that created the function; the
    functional update on the admin path reads the state itself.  Each
    [return] of the source ends its branch here. *)
Definition determineView (view0 : AppState.t) (userId : string)
    : M (World State) unit :=
  (if AppState.eqb view0 AppState.auth then setView AppState.loading else ret tt) ;;
  try_catch
    (roleRes <- selectAdminRole userId ;;
     match data roleRes with
     | Some _ =>
         setUserRole (Some UserRole.admin) ;;
         profileRes <- selectProfile userId ;;
         match data profileRes with
         | Some profileData => setUserProfile (Some profileData)
         | None => setUserProfile (Some (adminTempProfile userId))
         end ;;
         updateView (fun prev =>
           if AppState.eqb prev AppState.chat then AppState.chat else AppState.admin)
     | None =>
         setUserRole (Some UserRole.member) ;;
         requestRes <- selectAccessRequest userId ;;
         match data requestRes with
         | None => setView AppState.request
         | Some request =>
             match AccessRequest.status request with
             | RequestStatus.pending => setView AppState.pending
             | RequestStatus.rejected => setView AppState.rejected
             | RequestStatus.approved =>
                 profileRes <- selectProfile userId ;;
                 match data profileRes with
                 | Some profileData =>
                     setUserProfile (Some profileData) ;;
                     setView AppState.chat
                 | None => setView AppState.profile
                 end
             end
         end
     end)
    (fun e =>
       console_error "State determination error:" ;;
       setView AppState.auth).

(** The callback of [onAuthStateChange], registered by the mount effect:
    its [determineView] is the closure of the first render, where [view]
    is ['loading']. *)
Definition onAuthStateChange (s : option string) : M (World State) unit :=
  setSession s ;;
  match s with
  | Some userId => determineView AppState.loading userId
  | None =>
      setView AppState.auth ;;
      setUserProfile None ;;
      setUserRole None
  end.

(** What [App] returns: one screen per view, with the props it passes.
    [RenderError] is the [TypeError] of reading [session.user] while the
    session is [null]. *)
Inductive Screen :=
| Loader
| AuthScreen
| RequestFormScreen (userId : string)
| PendingNotice
| RejectedNotice
| DashboardScreen
| CreateProfileScreen (userId : string)
| ChatScreen (user : string) (userProfile : Profile.t) (userRole : UserRole.t)
             (backToAdmin : bool)
| UnknownState
| RenderError.

(** The render logic of [App], its tests in the order of the source. *)
Definition render (st : State) : Screen :=
  match view st with
  | AppState.loading => Loader
  | AppState.auth => AuthScreen
  | AppState.request =>
      match session st with
      | Some userId => RequestFormScreen userId
      | None => RenderError
      end
  | AppState.pending => PendingNotice
  | AppState.rejected => RejectedNotice
  | AppState.admin => DashboardScreen
  | AppState.profile =>
      match session st with
      | Some userId => CreateProfileScreen userId
      | None => RenderError
      end
  | AppState.chat =>
      match userProfile st with
      | Some p =>
          match session st with
          | Some userId =>
              ChatScreen userId p
                match userRole st with
                | Some r => r
                | None => UserRole.member
                end
                match userRole st with
                | Some UserRole.admin => true
                | _ => false
                end
          | None => RenderError
          end
      | None => UnknownState
      end
  end.
End App.

(* ================================================================== *)
(** * AdminDashboard: the decision workflow
      (src/components/AccessRequestForm.tsx) *)
(* ================================================================== *)

(** The [status] argument of [handleDecision]: ['approved' | 'rejected']. *)
Module Decision.
Inductive t := approved | rejected.
Definition status (d : t) : RequestStatus.t :=
  match d with
  | approved => RequestStatus.approved
  | rejected => RequestStatus.rejected
  end.
End Decision.




Module AdminDashboard.
(** ['requests' | 'users'] *)
Inductive Tab := requestsTab | usersTab.

(** [UserView extends AccessRequest { profile?: Profile }] *)
Record UserView := mkUserView {
  request : AccessRequest.t;
  profile : option Profile.t
}.

Record State := mkState {
  activeTab : Tab;
  requests : list AccessRequest.t;
  allUsers : list UserView;
  loading : bool;
  actionLoading : option string;
  searchTerm : string
}.

Definition setRequests (f : list AccessRequest.t -> list AccessRequest.t)
    : M (World State) unit :=
  modify_ui (fun st => mkState (activeTab st) (f (requests st)) (allUsers st)
                               (loading st) (actionLoading st) (searchTerm st)).
Definition setAllUsers (l : list UserView) : M (World State) unit :=
  modify_ui (fun st => mkState (activeTab st) (requests st) l
                               (loading st) (actionLoading st) (searchTerm st)).
Definition setLoading (b : bool) : M (World State) unit :=
  modify_ui (fun st => mkState (activeTab st) (requests st) (allUsers st)
                               b (actionLoading st) (searchTerm st)).
Definition setActionLoading (a : option string) : M (World State) unit :=
  modify_ui (fun st => mkState (activeTab st) (requests st) (allUsers st)
                               (loading st) a (searchTerm st)).

(** [fetchAllUsers()]: the decided requests, each merged with the profile
    of its user. *)
Definition fetchAllUsers : M (World State) unit :=
  setLoading true ;;
  reqRes <- selectDecidedRequests ;;
  match error reqRes, data reqRes with
  | None, Some requestData =>
      let userIds := map AccessRequest.user_id requestData in
      profRes <- selectProfilesIn userIds ;;
      let merged :=
        map (fun req =>
               mkUserView req
                 match data profRes with
                 | Some profileData =>
                     find (fun p => String.eqb (Profile.user_id p)
                                               (AccessRequest.user_id req))
                          profileData
                 | None => None
                 end)
            requestData in
      setAllUsers merged ;;
      setLoading false
  | _, _ => setLoading false
  end.

(** [handleDecision(id, userId, status)] *)
Definition handleDecision (id userId : string) (status : Decision.t)
    : M (World State) unit :=
  setActionLoading (Some id) ;;
  try_finally
    (try_catch
       (updRes <- updateRequestStatus id (Decision.status status) ;;
        match error updRes with
        | Some updateError => throw updateError
        | None => ret tt
        end ;;
        match status with
        | Decision.approved => upsertRole userId UserRole.member
        | Decision.rejected => deleteRole userId
        end ;;
        st <- get_ui ;;
        match activeTab st with
        | requestsTab =>
            setRequests
              (filter (fun r => negb (String.eqb (AccessRequest.id r) id)))
        | usersTab => fetchAllUsers
        end)
       (fun err =>
          console_error "Error processing decision:" ;;
          alert "Failed to update user status"))
    (setActionLoading None).

(** [fetchRequests()]: the pending requests, newest first. *)
Definition fetchRequests : M (World State) unit :=
  setLoading true ;;
  res <- selectPendingRequests ;;
  match error res, data res with
  | None, Some rows => setRequests (fun _ => rows)
  | _, _ => ret tt
  end ;;
  setLoading false.

End AdminDashboard.

(* ================================================================== *)
(** * ChatInterface: the message feed and the senders
      (src/components/CreateProfile.tsx) *)
(* ================================================================== *)

(** A file or blob handed to an upload: its name and its payload. *)
Record File := mkFile {
  file_name : string;
  file_payload : string
}.

(** [s.split('.')]: the pieces between the dots, never an empty list. *)
Fixpoint split_dot (s : string) : list string :=
  match s with
  | EmptyString => [EmptyString]
  | String c s' =>
      if Ascii.eqb c "."%char then EmptyString :: split_dot s'
      else match split_dot s' with
           | [] => [String c EmptyString]
           | h :: t => String c h :: t
           end
  end.

(** [file.name.split('.').pop()] *)
Definition fileExt (name : string) : string := last (split_dot name) EmptyString.



(** An async task started without [await] (an event handler, a promise left
    alone): the caller goes on from the state the task reached, whether it
    returned or threw. *)
Definition detached {S} (c : M S unit) : M S unit :=
  fun s => Val tt (state_of (c s)).

Module ChatInterface.
Record State := mkState {
  messages : list Message.t;
  newMessage : string;
  loading : bool;
  sending : bool;
  isRecording : bool
}.

Definition setMessages (f : list Message.t -> list Message.t) : M (World State) unit :=
  modify_ui (fun st => mkState (f (messages st)) (newMessage st) (loading st)
                               (sending st) (isRecording st)).
Definition setNewMessage (s : string) : M (World State) unit :=
  modify_ui (fun st => mkState (messages st) s (loading st) (sending st) (isRecording st)).
Definition setLoading (b : bool) : M (World State) unit :=
  modify_ui (fun st => mkState (messages st) (newMessage st) b (sending st) (isRecording st)).
Definition setSending (b : bool) : M (World State) unit :=
  modify_ui (fun st => mkState (messages st) (newMessage st) (loading st) b (isRecording st)).

(** The dummy profile shown for a sender without a profile row. *)
Definition dummyProfile (senderId : string) : Profile.t :=
  Profile.mk "admin" senderId "Admin" "Administrator" None.

(** [fetchMessages()] *)
Definition fetchMessages : M (World State) unit :=
  setLoading true ;;
  res <- selectMessages ;;
  match error res, data res with
  | None, Some rows => setMessages (fun _ => rows)
  | _, _ => ret tt
  end ;;
  setLoading false.

(** The handler of an [INSERT] event on [messages]; [newMsg] is
    [payload.new]. *)
Definition onInsert (newMsg : Message.t) : M (World State) unit :=
  res <- selectProfileSingle (Message.sender_id newMsg) ;;
  let displayProfile :=
    match data res with
    | Some p => p
    | None => dummyProfile (Message.sender_id newMsg)
    end in
  setMessages (fun prev => prev ++ [Message.with_profiles (Some displayProfile) newMsg]).

(** The mount effect starts the fetch; afterwards each insert event runs
    its handler, in the order the events arrive. *)
Definition mount : M (World State) unit := detached fetchMessages.

Fixpoint deliver (events : list Message.t) : M (World State) unit :=
  match events with
  | [] => ret tt
  | ev :: rest => detached (onInsert ev) ;; deliver rest
  end.

Section Props.
(** [VITE_SUPABASE_URL], read from the environment by the client, and
    [user.id] of the props. *)
Variable SUPABASE_URL : string.
Variable user : string.

(** [getPublicUrl(path).data.publicUrl] *)
Definition publicUrl (path : string) : string :=
  (SUPABASE_URL ++ "/storage/v1/object/public/chat-media/" ++ path)%string.

(** [handleSendMessage(type, content)] *)
Definition handleSendMessage (ty : MessageType.t) (content : string)
    : M (World State) unit :=
  setSending true ;;
  try_finally
    (try_catch
       (insertMessage user ty content ;;
        setNewMessage "")
       (fun err => console_error err))
    (setSending false).


(** [handleImageUpload(e)]: [file] is [e.target.files?.[0]], [now] is
    [Date.now()]. *)
Definition handleImageUpload (file : option File) (now : N) : M (World State) unit :=
  match file with
  | None => ret tt
  | Some f =>
      setSending true ;;
      try_finally
        (try_catch
           (let fileExt := fileExt (file_name f) in
            let fileName :=
              ("images/" ++ user ++ "-" ++ decimal now ++ "." ++ fileExt)%string in
            res <- storageUpload fileName (file_payload f) ;;
            match error res with
            | Some e => throw e
            | None => ret tt
            end ;;
            match data res with
            | Some path => handleSendMessage MessageType.image (publicUrl path)
            | None => throw "TypeError: data is null"
            end)
           (fun err => console_error "Error uploading image:"))
        (setSending false)
  end.

(** [uploadAudio(blob)]; [now] is [Date.now()]. *)
Definition uploadAudio (blob : string) (now : N) : M (World State) unit :=
  setSending true ;;
  try_finally
    (try_catch
       (let fileName := ("audio/" ++ user ++ "-" ++ decimal now ++ ".webm")%string in
        res <- storageUpload fileName blob ;;
        match error res with
        | Some e => throw e
        | None => ret tt
        end ;;
        match data res with
        | Some path => handleSendMessage MessageType.audio (publicUrl path)
        | None => throw "TypeError: data is null"
        end)
       (fun err => console_error "Error uploading audio:"))
    (setSending false).
End Props.
End ChatInterface.

(* ================================================================== *)
(** * AccessRequestForm (src/components/AccessRequestForm.tsx) *)
(* ================================================================== *)

Module AccessRequestForm.
Record State := mkState {
  name : string;
  reason : string;
  loading : bool;
  error : string
}.

Section Props.
(** The props [userId] and [onSubmitted]; [P] is the state of the parent
    that the callback works on. *)
Context {P : Type}.
Variable userId : string.
Variable onSubmitted : M (World P) unit.

Definition setLoading (b : bool) : M (World (State * P)) unit :=
  modify_ui (fun sp => (mkState (name (fst sp)) (reason (fst sp)) b (error (fst sp)),
                        snd sp)).
Definition setError (e : string) : M (World (State * P)) unit :=
  modify_ui (fun sp => (mkState (name (fst sp)) (reason (fst sp)) (loading (fst sp)) e,
                        snd sp)).

(** [handleSubmit(e)]; [onSubmitted()] is called and not awaited. *)
Definition handleSubmit : M (World (State * P)) unit :=
  setLoading true ;;
  setError "" ;;
  try_finally
    (try_catch
       (sp <- get_ui ;;
        res <- insertAccessRequest userId (name (fst sp)) (reason (fst sp)) ;;
        match res with
        | mkResponse _ (Some dbError) => throw dbError
        | mkResponse _ None => ret tt
        end ;;
        in_parent (detached onSubmitted))
       (fun err =>
          setError (if String.eqb err "" then "Failed to submit request" else err)))
    (setLoading false).
End Props.
End AccessRequestForm.

(* ================================================================== *)
(** * CreateProfile (src/components/CreateProfile.tsx) *)
(* ================================================================== *)

Module CreateProfile.
Record State := mkState {
  username : string;
  bio : string;
  file : option File;
  loading : bool
}.

Section Props.
(** [VITE_SUPABASE_URL] of the client, the props [userId] and
    [onProfileCreated]; [P] is the state of the parent. *)
Context {P : Type}.
Variable SUPABASE_URL : string.
Variable userId : string.
Variable onProfileCreated : M (World P) unit.

Definition setLoading (b : bool) : M (World (State * P)) unit :=
  modify_ui (fun sp => (mkState (username (fst sp)) (bio (fst sp)) (file (fst sp)) b,
                        snd sp)).

(** [handleSubmit(e)]; [rnd] is the text of [Math.random()]. *)
Definition handleSubmit (rnd : string) : M (World (State * P)) unit :=
  setLoading true ;;
  try_finally
    (try_catch
       (sp <- get_ui ;;
        dpUrl <- match file (fst sp) with
                 | Some f =>
                     let fileExt := fileExt (file_name f) in
                     let fileName := (userId ++ "-" ++ rnd ++ "." ++ fileExt)%string in
                     up <- storageUpload ("avatars/" ++ fileName)%string (file_payload f) ;;
                     match error up with
                     | Some uploadError => throw uploadError
                     | None => ret tt
                     end ;;
                     match data up with
                     | Some path => ret (ChatInterface.publicUrl SUPABASE_URL path)
                     | None => throw "TypeError: data is null"
                     end
                 | None => ret EmptyString
                 end ;;
        res <- insertProfile userId (username (fst sp)) (bio (fst sp)) dpUrl ;;
        match error res with
        | Some dbError => throw dbError
        | None => ret tt
        end ;;
        in_parent (detached onProfileCreated))
       (fun err =>
          console_error err ;;
          alert "Error creating profile"))
    (setLoading false).
End Props.
End CreateProfile.

Unset Implicit Arguments.

(* ================================================================== *)
(** * Vocabulary of the statements *)
(* ================================================================== *)

(** The next [k] calls are served by the store. *)
Definition served (k : nat) (n : list Fault) : Prop :=
  Forall (fun f => f = Served) (firstn k n).

(** The call resolves to a response object, with or without an error. *)
Definition answered (f : Fault) : Prop :=
  match f with
  | Rejected _ => False
  | _ => True
  end.

(** The call fails, one way or the other. *)
Definition fails (f : Fault) : Prop := f <> Served.

Definition has_admin_role (d : Db) (u : string) : Prop :=
  In (RoleRow.mk u UserRole.admin) (roles d).

Definition has_role_row (d : Db) (u : string) : Prop :=
  exists row, In row (roles d) /\ RoleRow.user_id row = u.

Definition has_approved_request (d : Db) (u : string) : Prop :=
  exists r, In r (access_requests d)
            /\ AccessRequest.user_id r = u
            /\ AccessRequest.status r = RequestStatus.approved.

Definition has_profile (d : Db) (u : string) : Prop :=
  exists p, In p (profiles d) /\ Profile.user_id p = u.

(** The uniqueness the schema declares on [roles.user_id] and
    [profiles.user_id], and the one request per user that the resolver
    takes for granted. *)
Definition one_row_per_user (d : Db) : Prop :=
  NoDup (map RoleRow.user_id (roles d))
  /\ NoDup (map Profile.user_id (profiles d))
  /\ NoDup (map AccessRequest.user_id (access_requests d)).

(** The view the resolver leaves on the screen. *)
Definition view_after (view0 : AppState.t) (u : string) (w : World App.State)
    : AppState.t :=
  App.view (ui (state_of (App.determineView view0 u w))).

(** The sticky rule of the admin path. *)
Definition sticky (current : AppState.t) : AppState.t :=
  if AppState.eqb current AppState.chat then AppState.chat else AppState.admin.

(** The contract of the resolver in the words of the specification: the
    admin role first, then the access request, then the profile. *)
Definition resolved_view (d : Db) (u : string) (current : AppState.t) : AppState.t :=
  match data (maybeSingle (admin_rows u d)) with
  | Some _ => sticky current
  | None =>
      match data (maybeSingle (request_rows u d)) with
      | None => AppState.request
      | Some r =>
          match AccessRequest.status r with
          | RequestStatus.pending => AppState.pending
          | RequestStatus.rejected => AppState.rejected
          | RequestStatus.approved =>
              match data (maybeSingle (profile_rows u d)) with
              | Some _ => AppState.chat
              | None => AppState.profile
              end
          end
      end
  end.

(** The same world over another store. *)
Definition with_db {U} (d : Db) (w : World U) : World U :=
  mkWorld d (net w) (trace w) (console w) (alerts w) (ui w).

(** The rows of [l] that belong to user [u]. *)
Definition rows_of {A} (key : A -> string) (u : string) (l : list A) : list A :=
  filter (fun x => String.eqb (key x) u) l.

(** The profile the feed attaches to the message of an insert event, over
    the store [d]. *)
Definition attach (d : Db) (m : Message.t) : Message.t :=
  Message.with_profiles
    (Some match profile_rows (Message.sender_id m) d with
          | [p] => p
          | _ => ChatInterface.dummyProfile (Message.sender_id m)
          end)
    m.

(** A falsy [dp_url]: [null] or the empty string, no picture to show. *)
Definition no_media (p : Profile.t) : Prop :=
  Profile.dp_url p = None \/ Profile.dp_url p = Some "".

(** The role step of a decision: the member row for an approval, no row
    for a rejection. *)
Definition role_step (u : string) (decision : Decision.t) (d : Db) : Db :=
  match decision with
  | Decision.approved => upsert_role u UserRole.member d
  | Decision.rejected => delete_role u d
  end.

(** The store after a decision whose status update met [f1] and whose role
    call met [f2]. *)
Definition decision_db (id u : string) (decision : Decision.t) (f1 f2 : Fault)
    (d : Db) : Db :=
  match f1 with
  | Served =>
      match f2 with
      | Served => role_step u decision (update_status id (Decision.status decision) d)
      | _ => update_status id (Decision.status decision) d
      end
  | _ => d
  end.

(** The dashboard with no action in progress. *)
Definition idle (st : AdminDashboard.State) : AdminDashboard.State :=
  AdminDashboard.mkState (AdminDashboard.activeTab st) (AdminDashboard.requests st)
    (AdminDashboard.allUsers st) (AdminDashboard.loading st) None
    (AdminDashboard.searchTerm st).


(** The chat with no send in progress. *)
Definition not_sending (st : ChatInterface.State) : ChatInterface.State :=
  ChatInterface.mkState (ChatInterface.messages st) (ChatInterface.newMessage st)
    (ChatInterface.loading st) false (ChatInterface.isRecording st).

(** A decision fails where the code notices it: the status update fails,
    or the call on [roles] that follows a served update rejects. *)
Definition decision_fails (n : list Fault) : Prop :=
  fails (hd Served n)
  \/ (hd Served n = Served /\ exists e, hd Served (tl n) = Rejected e).

(** ** Sample data

    A store with an admin [root] without profile, an approved member [bob]
    with a profile, and [carol] whose request is pending. *)
Definition sample_db : Db :=
  mkDb [Profile.mk "p-bob" "bob" "bobby" "hello" None]
       [AccessRequest.mk "req-bob" "bob" "Bob" "to chat" RequestStatus.approved 10%N;
        AccessRequest.mk "req-carol" "carol" "Carol" "to read" RequestStatus.pending 11%N]
       [RoleRow.mk "root" UserRole.admin; RoleRow.mk "bob" UserRole.member]
       [Message.mk "m2" "root" MessageType.text "second" 21%N None;
        Message.mk "m1" "bob" MessageType.text "first" 20%N None]
       [] 100%N 7%N.

Definition app_world (n : list Fault) (v : AppState.t) : World App.State :=
  mkWorld sample_db n [] [] [] (App.mkState None v None None).

Definition dashboard_world (n : list Fault) (tab : AdminDashboard.Tab)
    : World AdminDashboard.State :=
  mkWorld sample_db n [] [] []
          (AdminDashboard.mkState tab [] [] false None "").

Definition chat_world (n : list Fault) (composer : string)
    : World ChatInterface.State :=
  mkWorld sample_db n [] [] [] (ChatInterface.mkState [] composer false false false).

(** An insert event for a message of [root], created before the messages
    of the sample store. *)
Definition sample_event : Message.t :=
  Message.mk "m0" "root" MessageType.text "hi" 5%N None.

Definition sample_url : string := "https://chat.example".

Definition sample_file : File := mkFile "cat.png" "89504e47".

(** ** Vocabulary of the further properties *)

(** The string has no dot. *)
Definition dot_free (s : string) : Prop :=
  ~ In "."%char (list_ascii_of_string s).


(** The name shown for a user of the roster: [u.profile?.username || '']. *)
Definition profile_name (u : AdminDashboard.UserView) : string :=
  match AdminDashboard.profile u with
  | Some p => Profile.username p
  | None => EmptyString
  end.


(** Newest first: descending [created_at]. *)
Definition newer_first (a b : AccessRequest.t) : Prop :=
  (AccessRequest.created_at b <= AccessRequest.created_at a)%N.

(** The requests of the store that are pending, and those that are not. *)
Definition pending_rows (d : Db) : list AccessRequest.t :=
  filter (fun r => RequestStatus.eqb (AccessRequest.status r) RequestStatus.pending)
         (access_requests d).

Definition decided_rows (d : Db) : list AccessRequest.t :=
  filter (fun r => negb (RequestStatus.eqb (AccessRequest.status r)
                                           RequestStatus.pending))
         (access_requests d).

(** The dashboard on the queue tab, showing the pending requests of the
    sample store. *)
Definition queue_world (n : list Fault) : World AdminDashboard.State :=
  mkWorld sample_db n [] [] []
          (AdminDashboard.mkState AdminDashboard.requestsTab
             (pending_requests sample_db) [] false None "").

(** The request form as [App] mounts it in the view ['request'], and the
    profile form as it mounts it in the view ['profile']: the callbacks are
    the resolver of that render. *)
Definition submitRequest (u : string)
    : M (World (AccessRequestForm.State * App.State)) unit :=
  AccessRequestForm.handleSubmit u (App.determineView AppState.request u).

Definition submitProfile (url u rnd : string)
    : M (World (CreateProfile.State * App.State)) unit :=
  CreateProfile.handleSubmit url u (App.determineView AppState.profile u) rnd.


(** [dave], who has signed in and has no request yet, on the request form;
    [erin], approved and without profile, on the profile form. *)
Definition request_form_world (n : list Fault)
    : World (AccessRequestForm.State * App.State) :=
  mkWorld sample_db n [] [] []
          (AccessRequestForm.mkState "Dave" "to read" false "",
           App.mkState (Some "dave") AppState.request None (Some UserRole.member)).

Definition erin_db : Db :=
  mkDb (profiles sample_db)
       (access_requests sample_db
        ++ [AccessRequest.mk "req-erin" "erin" "Erin" "to talk"
                             RequestStatus.approved 12%N])
       (roles sample_db) (messages sample_db) [] 100%N 7%N.

Definition profile_form_world (n : list Fault) (file : option File)
    : World (CreateProfile.State * App.State) :=
  mkWorld erin_db n [] [] []
          (CreateProfile.mkState "erin" "hi there" file false,
           App.mkState (Some "erin") AppState.profile None (Some UserRole.member)).

(* ================================================================== *)
(** * Lemmas on tables *)
(* ================================================================== *)

Section Tables.
Context {A : Type} (key : A -> string).

Lemma rows_of_In (u : string) (l : list A) (x : A) :
  In x (rows_of key u l) <-> In x l /\ key x = u.
Proof.
  unfold rows_of. rewrite filter_In, String.eqb_eq. reflexivity.
Qed.

Lemma rows_of_absent (u : string) (l : list A) :
  (forall x, In x l -> key x <> u) -> rows_of key u l = [].
Proof.
  induction l as [|y l IH]; intros H; [reflexivity|].
  unfold rows_of in *. cbn.
  destruct (String.eqb_spec (key y) u) as [E|E].
  - exfalso. apply (H y); [left; reflexivity | exact E].
  - apply IH. intros x Hx. apply H. right. exact Hx.
Qed.

Lemma rows_of_unique (l : list A) (x : A) :
  NoDup (map key l) -> In x l -> rows_of key (key x) l = [x].
Proof.
  induction l as [|y l IH]; intros ND Hin; [contradiction|].
  cbn in ND. inversion ND as [|? ? Hnot ND']; subst.
  unfold rows_of in *. cbn.
  destruct Hin as [-> | Hin].
  - rewrite String.eqb_refl. f_equal.
    apply rows_of_absent. intros z Hz E. apply Hnot.
    rewrite <- E. apply in_map. exact Hz.
  - destruct (String.eqb_spec (key y) (key x)) as [E|E].
    + exfalso. apply Hnot. rewrite E. apply in_map. exact Hin.
    + apply IH; assumption.
Qed.

(** Under the uniqueness of the key a user has one row or none. *)
Lemma rows_of_cases (u : string) (l : list A) :
  NoDup (map key l) ->
  (exists x, In x l /\ key x = u /\ rows_of key u l = [x])
  \/ ((forall x, In x l -> key x <> u) /\ rows_of key u l = []).
Proof.
  intros ND.
  destruct (rows_of key u l) as [|x rest] eqn:E.
  - right. split; [|reflexivity].
    intros x Hx Hk.
    assert (In x (rows_of key u l)) as Hin by (apply rows_of_In; auto).
    rewrite E in Hin. exact Hin.
  - left. exists x.
    assert (In x l /\ key x = u) as [Hx Hk].
    { apply rows_of_In. rewrite E. left. reflexivity. }
    repeat split; try assumption.
    subst u. rewrite <- E. apply rows_of_unique; assumption.
Qed.
End Tables.

Lemma filter_andb {A} (p q : A -> bool) (l : list A) :
  filter (fun x => p x && q x) l = filter q (filter p l).
Proof.
  induction l as [|x l IH]; [reflexivity|].
  cbn. destruct (p x); cbn; [destruct (q x)|]; rewrite ?IH; reflexivity.
Qed.

Lemma role_eqb_eq (a b : UserRole.t) : UserRole.eqb a b = true <-> a = b.
Proof. destruct a, b; cbn; split; congruence. Qed.

Lemma admin_rows_rows_of (u : string) (d : Db) :
  admin_rows u d =
  map RoleRow.role
      (filter (fun r => UserRole.eqb (RoleRow.role r) UserRole.admin)
              (rows_of RoleRow.user_id u (roles d))).
Proof. unfold admin_rows, rows_of. rewrite filter_andb. reflexivity. Qed.

(** Without an admin row the role query finds nothing. *)
Lemma admin_rows_none (u : string) (d : Db) :
  ~ has_admin_role d u -> admin_rows u d = [].
Proof.
  intros H. unfold admin_rows.
  destruct (filter _ (roles d)) as [|row rest] eqn:E; [reflexivity|].
  exfalso. apply H.
  assert (In row (filter (fun r => String.eqb (RoleRow.user_id r) u
                                   && UserRole.eqb (RoleRow.role r) UserRole.admin)
                         (roles d))) as Hin by (rewrite E; left; reflexivity).
  apply filter_In in Hin. destruct Hin as [Hin Hb].
  apply andb_true_iff in Hb. destruct Hb as [Hu Hr].
  apply String.eqb_eq in Hu. apply role_eqb_eq in Hr.
  destruct row as [ru rr]. cbn in *. subst. exact Hin.
Qed.

(** With unique user ids the role query finds the admin row alone. *)
Lemma admin_rows_one (u : string) (d : Db) :
  NoDup (map RoleRow.user_id (roles d)) ->
  has_admin_role d u -> admin_rows u d = [UserRole.admin].
Proof.
  intros ND H. rewrite admin_rows_rows_of.
  change u with (RoleRow.user_id (RoleRow.mk u UserRole.admin)).
  rewrite (rows_of_unique RoleRow.user_id _ _ ND H). reflexivity.
Qed.

Lemma RoleRow_eq_dec (a b : RoleRow.t) : {a = b} + {a <> b}.
Proof. repeat decide equality. Defined.

Lemma has_admin_role_dec (d : Db) (u : string) :
  {has_admin_role d u} + {~ has_admin_role d u}.
Proof. apply in_dec. exact RoleRow_eq_dec. Defined.

(* ================================================================== *)
(** * Lemmas on the network and on views *)
(* ================================================================== *)

Lemma served_step (k : nat) (n : list Fault) :
  served (S k) n -> hd Served n = Served /\ served k (tl n).
Proof.
  unfold served. destruct n as [|f n]; cbn.
  - intros _. split; [reflexivity|]. destruct k; constructor.
  - intros H. inversion H; subst. auto.
Qed.

Lemma served_nil (k : nat) : served k [].
Proof. unfold served. destruct k; constructor. Qed.

Lemma served_le (k k' : nat) (n : list Fault) :
  k' <= k -> served k n -> served k' n.
Proof.
  revert k' n. induction k as [|k IH]; intros k' n Hle H.
  - replace k' with 0 by lia. exact H.
  - destruct k' as [|k']; [constructor|].
    destruct n as [|f n]; [apply served_nil|].
    unfold served in *. cbn in *. inversion H; subst.
    constructor; [reflexivity|]. apply IH; [lia | assumption].
Qed.

Lemma view_eqb_eq (a b : AppState.t) : AppState.eqb a b = true <-> a = b.
Proof. destruct a, b; cbn; split; congruence. Qed.

Lemma sticky_chat : sticky AppState.chat = AppState.chat.
Proof. reflexivity. Qed.

Lemma sticky_other (v : AppState.t) : v <> AppState.chat -> sticky v = AppState.admin.
Proof. destruct v; cbn; congruence. Qed.

(* ================================================================== *)
(** * The view resolver *)
(* ================================================================== *)

Ltac unfold_app :=
  unfold view_after, App.determineView, bind, try_catch,
    selectAdminRole, selectProfile, selectAccessRequest, query, call.

(** Runs the resolver symbolically: every call takes the fate the context
    gives it, every response and status is split into its cases. *)
Ltac crunch :=
  repeat (cbn;
          match goal with
          | H : hd Served ?n = _ |- context [hd Served ?n] => rewrite H
          | H : ?r = _ |- context [match data ?r with _ => _ end] => rewrite H
          | |- context [match hd Served ?n with _ => _ end] => destruct (hd Served n)
          | |- context [match data ?r with _ => _ end] =>
              destruct r as [[?|] ?] eqn:?
          | |- context [match AccessRequest.status ?r with _ => _ end] =>
              destruct (AccessRequest.status r)
          end); cbn.

(** With its queries served the resolver computes the view of the
    contract, from the store and the view on the screen. *)
Lemma determineView_served (view0 : AppState.t) (u : string) (w : World App.State) :
  served 3 (net w) ->
  (view0 = AppState.auth -> App.view (ui w) <> AppState.chat) ->
  view_after view0 u w = resolved_view (db w) u (App.view (ui w)).
Proof.
  destruct w as [d n t c a [s v p r]]. cbn [net ui App.view db].
  intros Hs Hv.
  apply served_step in Hs. destruct Hs as [H1 Hs].
  apply served_step in Hs. destruct Hs as [H2 Hs].
  apply served_step in Hs. destruct Hs as [H3 _].
  unfold_app. unfold resolved_view.
  destruct (AppState.eqb view0 AppState.auth) eqn:E0; crunch; try reflexivity.
  all: apply view_eqb_eq in E0; specialize (Hv E0); destruct v; cbn; congruence.
Qed.

(** A session change runs the resolver of the first render: with the
    queries served the new view is the one of the contract. *)
Lemma session_change_resolves (u : string) (w : World App.State) :
  served 3 (net w) ->
  App.view (ui (state_of (App.onAuthStateChange (Some u) w)))
  = resolved_view (db w) u (App.view (ui w)).
Proof.
  intros Hs. destruct w as [d n t c a [s v p r]].
  apply (determineView_served AppState.loading u
           (mkWorld d n t c a (App.mkState (Some u) v p r))).
  - exact Hs.
  - discriminate.
Qed.


(** The resolver reads the store through three row selections only. *)
Lemma determineView_ext (view0 : AppState.t) (u : string) (d1 d2 : Db)
    (w : World App.State) :
  admin_rows u d1 = admin_rows u d2 ->
  request_rows u d1 = request_rows u d2 ->
  profile_rows u d1 = profile_rows u d2 ->
  ui (state_of (App.determineView view0 u (with_db d1 w)))
  = ui (state_of (App.determineView view0 u (with_db d2 w))).
Proof.
  intros Ha Hr Hp.
  destruct w as [d n t c a [s v p r]].
  unfold_app. unfold with_db. cbn [net ui App.view db trace console alerts].
  destruct (AppState.eqb view0 AppState.auth);
    repeat (cbn;
            match goal with
            | |- context [admin_rows u d1] => rewrite Ha
            | |- context [request_rows u d1] => rewrite Hr
            | |- context [profile_rows u d1] => rewrite Hp
            | H : ?r = _ |- context [match data ?r with _ => _ end] => rewrite H
            | |- context [match hd Served ?n with _ => _ end] => destruct (hd Served n)
            | |- context [match data ?r with _ => _ end] =>
                destruct r as [[?|] ?] eqn:?
            | |- context [match AccessRequest.status ?r with _ => _ end] =>
                destruct (AccessRequest.status r)
            end); cbn; reflexivity.
Qed.

(** A query whose promise rejects is caught: the resolver falls back to the
    sign-in view, whichever of its first two calls rejects. *)
Lemma rejected_query_yields_auth (view0 : AppState.t) (u : string)
    (w : World App.State) (f : Fault) (e : string) (rest : list Fault) :
  net w = Rejected e :: rest \/ (answered f /\ net w = f :: Rejected e :: rest) ->
  view_after view0 u w = AppState.auth.
Proof.
  destruct w as [d n t c a [s v p r]]. cbn [net].
  intros [-> | [Hf ->]]; unfold_app.
  - destruct (AppState.eqb view0 AppState.auth); cbn; reflexivity.
  - destruct f as [|e'|e']; [| |contradiction];
      destruct (AppState.eqb view0 AppState.auth); crunch; reflexivity.
Qed.

(** ** What the selections say about the store *)

Lemma approved_request_one (d : Db) (u : string) (r : AccessRequest.t) :
  request_rows u d = [r] ->
  (has_approved_request d u <-> AccessRequest.status r = RequestStatus.approved).
Proof.
  intros E. split.
  - intros (r' & Hin & Hu & Hst).
    assert (In r' (request_rows u d)) as H by (apply rows_of_In; auto).
    rewrite E in H. destruct H as [-> | []]. exact Hst.
  - intros Hst. exists r.
    assert (In r (request_rows u d)) as H by (rewrite E; left; reflexivity).
    apply (rows_of_In AccessRequest.user_id) in H. tauto.
Qed.

Lemma approved_request_none (d : Db) (u : string) :
  request_rows u d = [] -> ~ has_approved_request d u.
Proof.
  intros E (r' & Hin & Hu & _).
  assert (In r' (request_rows u d)) as H by (apply rows_of_In; auto).
  rewrite E in H. exact H.
Qed.

Lemma profile_one (d : Db) (u : string) (p : Profile.t) :
  profile_rows u d = [p] -> has_profile d u.
Proof.
  intros E. exists p.
  assert (In p (profile_rows u d)) as H by (rewrite E; left; reflexivity).
  apply (rows_of_In Profile.user_id) in H. exact H.
Qed.

Lemma profile_none (d : Db) (u : string) :
  profile_rows u d = [] -> ~ has_profile d u.
Proof.
  intros E (p & Hin & Hu).
  assert (In p (profile_rows u d)) as H by (apply rows_of_In; auto).
  rewrite E in H. exact H.
Qed.

(** C1, as it is stated, fails: an admin who signs in is sent to the admin
    dashboard, not to the chat, although the right-hand side of the
    equivalence holds. *)
Lemma admin_sign_in_is_not_chat :
  has_admin_role sample_db "root"
  /\ view_after AppState.loading "root" (app_world [] AppState.loading) = AppState.admin
  /\ ~ (view_after AppState.loading "root" (app_world [] AppState.loading) = AppState.chat
        <-> has_admin_role sample_db "root"
            \/ (has_approved_request sample_db "root" /\ has_profile sample_db "root")).
Proof.
  assert (has_admin_role sample_db "root") as Ha by (left; reflexivity).
  split; [exact Ha|]. split; [reflexivity|].
  intros [_ H]. specialize (H (or_introl Ha)). discriminate H.
Qed.

(** C1, amended: with its queries served, over a store with one row per
    user, the resolver yields a view that opens the chat (the chat itself
    or the admin dashboard) if and only if the user is an admin or has an
    approved request and a profile; it yields the chat itself exactly for
    an admin who is already in the chat and for an approved non-admin with
    a profile; the view is a function of the store and of the view on the
    screen. *)
Theorem chat_access_iff (view0 : AppState.t) (u : string) (w : World App.State) :
  one_row_per_user (db w) ->
  served 3 (net w) ->
  (view0 = AppState.auth -> App.view (ui w) <> AppState.chat) ->
  view_after view0 u w = resolved_view (db w) u (App.view (ui w))
  /\ (view_after view0 u w = AppState.chat \/ view_after view0 u w = AppState.admin
      <-> has_admin_role (db w) u
          \/ (has_approved_request (db w) u /\ has_profile (db w) u))
  /\ (view_after view0 u w = AppState.chat
      <-> (has_admin_role (db w) u /\ App.view (ui w) = AppState.chat)
          \/ (~ has_admin_role (db w) u
              /\ has_approved_request (db w) u /\ has_profile (db w) u)).
Proof.
  intros (NDr & NDp & NDq) Hs Hv.
  rewrite (determineView_served _ _ _ Hs Hv). split; [reflexivity|].
  set (d := db w) in *. set (v := App.view (ui w)). clearbody v.
  unfold resolved_view.
  destruct (has_admin_role_dec d u) as [Ha | Hna].
  - rewrite (admin_rows_one _ _ NDr Ha). cbn.
    split; [destruct v; cbn; intuition congruence|].
    split.
    + intros H. left. split; [exact Ha|]. destruct v; cbn in H; congruence.
    + intros [[_ ->] | [Hna _]]; [reflexivity | contradiction].
  - rewrite (admin_rows_none _ _ Hna). cbn.
    destruct (rows_of_cases AccessRequest.user_id u _ NDq)
      as [(r & _ & _ & Er) | (_ & Er)];
      change (rows_of AccessRequest.user_id u (access_requests d))
        with (request_rows u d) in Er; rewrite Er; cbn.
    + pose proof (approved_request_one _ _ _ Er) as Hap.
      destruct (AccessRequest.status r) eqn:Est; cbn.
      1, 3: split; split;
        try (intros [H | H]; discriminate H); try (intros H; discriminate H);
        intros [H | H]; try contradiction;
        destruct H as (? & ?); try contradiction;
        match goal with
        | H : has_approved_request _ _ |- _ => apply Hap in H; discriminate H
        | H : _ /\ _ |- _ => destruct H as [H _]; apply Hap in H; discriminate H
        end.
      destruct (rows_of_cases Profile.user_id u _ NDp)
        as [(p & _ & _ & Ep) | (_ & Ep)];
        change (rows_of Profile.user_id u (profiles d))
          with (profile_rows u d) in Ep; rewrite Ep; cbn.
      * pose proof (profile_one _ _ _ Ep) as Hp.
        assert (has_approved_request d u) as Hq by (apply Hap; reflexivity).
        split; split; auto.
      * pose proof (profile_none _ _ Ep) as Hp.
        split; split;
          try (intros [H | H]; discriminate H); try (intros H; discriminate H);
          intros [H | H]; try contradiction; tauto.
    + pose proof (approved_request_none _ _ Er) as Hq.
      split; split;
        try (intros [H | H]; discriminate H); try (intros H; discriminate H);
        intros [H | H]; try contradiction; tauto.
Qed.

(** The amended C1 at the sample store: [bob], approved and with a profile,
    signs in. *)
Lemma chat_access_iff_witness :
  view_after AppState.loading "bob" (app_world [] AppState.loading) = AppState.chat
  /\ has_approved_request sample_db "bob" /\ has_profile sample_db "bob".
Proof.
  assert (one_row_per_user sample_db) as Hstore.
  { repeat split; repeat constructor; cbn; intuition discriminate. }
  assert (served 3 (@nil Fault)) as Hnet by (apply served_nil).
  assert (AppState.loading = AppState.auth -> AppState.loading <> AppState.chat)
    as Hview by (intros _; discriminate).
  pose proof (chat_access_iff AppState.loading "bob" (app_world [] AppState.loading)
                Hstore Hnet Hview) as (_ & _ & Hchat).
  split; [reflexivity|].
  destruct Hchat as [Hchat _]. specialize (Hchat eq_refl).
  destruct Hchat as [[_ H] | (_ & Hq & Hp)]; [discriminate H | split; assumption].
Defined.

(** C2, on the code: when the role query and the access-request query
    resolve to an error response (store unreachable), the resolver ignores
    the [error] fields, reads the [null] data as no admin role and no
    request, and shows the access-request form instead of the sign-in
    view. *)
Theorem failed_queries_yield_request_form (view0 : AppState.t) (u : string)
    (w : World App.State) (e1 e2 : string) (rest : list Fault) :
  net w = Failed e1 :: Failed e2 :: rest ->
  view_after view0 u w = AppState.request
  /\ trace (state_of (App.determineView view0 u w))
     = trace w ++ [SelectAdminRole u; SelectAccessRequest u]
  /\ console (state_of (App.determineView view0 u w)) = console w.
Proof.
  destruct w as [d n t c a [s v p r]]. cbn [net trace console].
  intros ->. unfold_app.
  destruct (AppState.eqb view0 AppState.auth); cbn;
    rewrite <- app_assoc; repeat split; reflexivity.
Qed.

(** C2 at the sample store: the admin [root] signs in while the store is
    unreachable and lands on the access-request form. *)
Lemma failed_queries_yield_request_form_witness :
  has_admin_role sample_db "root"
  /\ view_after AppState.loading "root"
       (app_world [Failed "Failed to fetch"; Failed "Failed to fetch"] AppState.loading)
     = AppState.request.
Proof.
  split; [left; reflexivity|].
  apply (failed_queries_yield_request_form AppState.loading "root"
           (app_world [Failed "Failed to fetch"; Failed "Failed to fetch"]
                      AppState.loading)
           "Failed to fetch" "Failed to fetch" []).
  reflexivity.
Defined.

(** C3: for a user with the admin role, the role query being served and
    the profile query answered, the resolver yields the admin dashboard
    when the view on the screen is not the chat and the chat when it is;
    whatever becomes of the profile query it never yields the request form,
    the pending or rejected screens or the profile form. *)
Theorem admin_resolves_sticky (view0 : AppState.t) (u : string)
    (w : World App.State) :
  has_admin_role (db w) u ->
  NoDup (map RoleRow.user_id (roles (db w))) ->
  served 1 (net w) ->
  (view0 = AppState.auth -> App.view (ui w) <> AppState.chat) ->
  (answered (hd Served (tl (net w))) ->
     (App.view (ui w) <> AppState.chat -> view_after view0 u w = AppState.admin)
     /\ (App.view (ui w) = AppState.chat -> view_after view0 u w = AppState.chat))
  /\ view_after view0 u w <> AppState.request
  /\ view_after view0 u w <> AppState.pending
  /\ view_after view0 u w <> AppState.rejected
  /\ view_after view0 u w <> AppState.profile.
Proof.
  intros Ha ND Hs Hv.
  pose proof (admin_rows_one _ _ ND Ha) as Hrows.
  apply served_step in Hs. destruct Hs as [H1 _].
  destruct w as [d n t c a [s v p r]]. cbn [net ui App.view db] in *.
  unfold_app.
  destruct (AppState.eqb view0 AppState.auth) eqn:E0; cbn;
    rewrite H1; cbn; rewrite Hrows; cbn;
    destruct (hd Served (tl n)) as [|e|e]; cbn;
    try destruct (maybeSingle (profile_rows u d)) as [[x|] err]; cbn;
    (split; [intros Hans; try contradiction; split; intros Hview|]);
    try (apply view_eqb_eq in E0; specialize (Hv E0));
    try contradiction;
    try (destruct v; cbn; congruence);
    try (repeat split; destruct v; cbn; congruence).
Qed.

(** C3 at the sample store: [root] is resolved from the loader and from the
    chat. *)
Lemma admin_resolves_sticky_witness :
  view_after AppState.loading "root" (app_world [] AppState.loading) = AppState.admin
  /\ view_after AppState.loading "root" (app_world [] AppState.chat) = AppState.chat.
Proof.
  assert (has_admin_role sample_db "root") as Ha by (left; reflexivity).
  assert (NoDup (map RoleRow.user_id (roles sample_db))) as ND.
  { repeat constructor; cbn; intuition discriminate. }
  assert (served 1 (@nil Fault)) as Hs by (apply served_nil).
  assert (AppState.loading = AppState.auth -> AppState.loading <> AppState.chat)
    as Hv1 by discriminate.
  assert (AppState.loading = AppState.auth -> AppState.chat <> AppState.chat)
    as Hv2 by discriminate.
  split.
  - apply (admin_resolves_sticky AppState.loading "root"
             (app_world [] AppState.loading) Ha ND Hs Hv1); [exact I | discriminate].
  - apply (admin_resolves_sticky AppState.loading "root"
             (app_world [] AppState.chat) Ha ND Hs Hv2); [exact I | reflexivity].
Defined.

(** A member row is invisible to the role query. *)
Lemma admin_rows_member_row (u : string) (d : Db) (l1 l2 : list RoleRow.t)
    (row : RoleRow.t) :
  RoleRow.role row = UserRole.member ->
  admin_rows u (set_roles (l1 ++ row :: l2) d) = admin_rows u (set_roles (l1 ++ l2) d).
Proof.
  intros Hrow. unfold admin_rows, set_roles. cbn [roles].
  rewrite !filter_app. cbn [filter]. rewrite Hrow.
  rewrite andb_false_r. reflexivity.
Qed.

(** C10: the result of the resolver (view, profile and role it leaves in
    the state) is the same over two stores that differ only in a row of
    [roles] with role [member], for the user or for anyone else, whatever
    the network does. *)
Theorem member_row_is_irrelevant (view0 : AppState.t) (u who : string)
    (w : World App.State) (l1 l2 : list RoleRow.t) :
  ui (state_of (App.determineView view0 u
        (with_db (set_roles (l1 ++ RoleRow.mk who UserRole.member :: l2) (db w)) w)))
  = ui (state_of (App.determineView view0 u
        (with_db (set_roles (l1 ++ l2) (db w)) w))).
Proof.
  apply determineView_ext.
  - apply admin_rows_member_row. reflexivity.
  - reflexivity.
  - reflexivity.
Qed.

(* ================================================================== *)
(** * The decision workflow *)
(* ================================================================== *)

Ltac unfold_dashboard :=
  unfold AdminDashboard.handleDecision, AdminDashboard.fetchAllUsers,
    bind, try_catch, try_finally, throw, ret, get_ui,
    updateRequestStatus, upsertRole, deleteRole,
    selectDecidedRequests, selectProfilesIn, mutate, query, call.

(** The store a decision leaves behind depends on the fate of its first two
    calls only; the re-fetch of the roster reads and never writes. *)
Lemma handleDecision_db (id u : string) (decision : Decision.t)
    (w : World AdminDashboard.State) :
  db (state_of (AdminDashboard.handleDecision id u decision w))
  = decision_db id u decision (hd Served (net w)) (hd Served (tl (net w))) (db w).
Proof.
  destruct w as [d n t c a [tab rs us l al q]]. cbn [net db].
  unfold_dashboard. unfold decision_db, role_step. cbn.
  destruct (hd Served n) as [|e1|e1]; cbn; [|reflexivity|reflexivity].
  destruct decision; cbn;
    destruct (hd Served (tl n)) as [|e2|e2]; cbn; try reflexivity;
    destruct tab; cbn; try reflexivity;
    destruct (hd Served (tl (tl n))) as [|e3|e3]; cbn; try reflexivity;
    destruct (hd Served (tl (tl (tl n)))) as [|e4|e4]; cbn; reflexivity.
Qed.

(** C5: when the update of the status fails, by an error response or by a
    rejected promise, the decision stops there: the store is untouched, the
    update is the only call issued (no call on [roles]), the lists of the
    dashboard are as before, the failure notice is shown and the busy
    marker is cleared. *)
Theorem failed_update_aborts (id u : string) (decision : Decision.t)
    (w : World AdminDashboard.State) :
  fails (hd Served (net w)) ->
  state_of (AdminDashboard.handleDecision id u decision w)
  = mkWorld (db w) (tl (net w))
            (trace w ++ [UpdateRequestStatus id (Decision.status decision)])
            (console w ++ ["Error processing decision:"])
            (alerts w ++ ["Failed to update user status"])
            (idle (ui w)).
Proof.
  destruct w as [d n t c a [tab rs us l al q]]. cbn [net db trace console alerts ui].
  unfold fails. intros Hf. unfold_dashboard. cbn.
  destruct (hd Served n) as [|e1|e1]; cbn; [contradiction | reflexivity | reflexivity].
Qed.

(** C5 at the sample store: the update of [bob]'s request is refused. *)
Lemma failed_update_aborts_witness :
  roles (db (state_of (AdminDashboard.handleDecision "req-bob" "bob" Decision.rejected
                         (dashboard_world [Failed "permission denied"]
                                          AdminDashboard.usersTab))))
  = roles sample_db
  /\ trace (state_of (AdminDashboard.handleDecision "req-bob" "bob" Decision.rejected
                        (dashboard_world [Failed "permission denied"]
                                         AdminDashboard.usersTab)))
     = [UpdateRequestStatus "req-bob" RequestStatus.rejected].
Proof.
  assert (fails (hd Served (net (dashboard_world [Failed "permission denied"]
                                                 AdminDashboard.usersTab)))) as Hf.
  { cbn. discriminate. }
  rewrite (failed_update_aborts "req-bob" "bob" Decision.rejected _ Hf).
  split; reflexivity.
Defined.

(** ** The tables after a decision *)

Lemma request_rows_update_status (u id : string) (s : RequestStatus.t) (d : Db) :
  request_rows u (update_status id s d)
  = map (fun r => if String.eqb (AccessRequest.id r) id
                  then AccessRequest.with_status s r else r)
        (request_rows u d).
Proof.
  unfold request_rows, update_status. cbn [access_requests set_access_requests].
  induction (access_requests d) as [|r l IH]; [reflexivity|].
  cbn [map filter].
  destruct (String.eqb (AccessRequest.id r) id) eqn:Eid;
    cbn [AccessRequest.with_status AccessRequest.user_id];
    destruct (String.eqb (AccessRequest.user_id r) u);
    cbn [map]; rewrite ?Eid, IH; reflexivity.
Qed.

Lemma delete_role_rows (u : string) (d : Db) :
  rows_of RoleRow.user_id u (roles (delete_role u d)) = [].
Proof.
  apply rows_of_absent. intros row Hin Hu.
  unfold delete_role in Hin. cbn in Hin.
  apply filter_In in Hin. destruct Hin as [_ Hb].
  rewrite <- Hu, String.eqb_refl in Hb. discriminate Hb.
Qed.

Lemma delete_role_no_admin (u : string) (d : Db) :
  admin_rows u (delete_role u d) = [].
Proof.
  rewrite admin_rows_rows_of, delete_role_rows. reflexivity.
Qed.

Lemma existsb_user_absent (u : string) (l : list RoleRow.t) :
  existsb (fun row => String.eqb (RoleRow.user_id row) u) l = false ->
  forall row, In row l -> RoleRow.user_id row <> u.
Proof.
  intros H row Hin Hu.
  assert (existsb (fun row => String.eqb (RoleRow.user_id row) u) l = true) as Ht.
  { apply existsb_exists. exists row. split; [exact Hin|].
    apply String.eqb_eq. exact Hu. }
  congruence.
Qed.

Lemma upsert_row_keys_kept (u : string) (r : UserRole.t) (l : list RoleRow.t) :
  map RoleRow.user_id
      (map (fun row => if String.eqb (RoleRow.user_id row) u
                       then RoleRow.with_role r row else row) l)
  = map RoleRow.user_id l.
Proof.
  rewrite map_map. apply map_ext. intros row.
  destruct (String.eqb (RoleRow.user_id row) u); reflexivity.
Qed.

(** The upsert keeps the user ids unique. *)
Lemma upsert_row_NoDup (u : string) (r : UserRole.t) (l : list RoleRow.t) :
  NoDup (map RoleRow.user_id l) -> NoDup (map RoleRow.user_id (upsert_row u r l)).
Proof.
  intros ND. unfold upsert_row.
  destruct (existsb _ l) eqn:E.
  - rewrite upsert_row_keys_kept. exact ND.
  - rewrite map_app. cbn.
    apply NoDup_app; [exact ND | repeat constructor; intros [] | ].
    intros k Hk [<- | []].
    apply in_map_iff in Hk. destruct Hk as (row & Hu & Hin).
    exact (existsb_user_absent u l E row Hin Hu).
Qed.

(** After the upsert the user has the one row asked for. *)
Lemma upsert_row_rows (u : string) (r : UserRole.t) (l : list RoleRow.t) :
  NoDup (map RoleRow.user_id l) ->
  rows_of RoleRow.user_id u (upsert_row u r l) = [RoleRow.mk u r].
Proof.
  intros ND. unfold upsert_row.
  destruct (existsb _ l) eqn:E.
  - apply existsb_exists in E. destruct E as (row & Hin & Hu).
    apply String.eqb_eq in Hu.
    assert (In (RoleRow.mk u r)
               (map (fun row => if String.eqb (RoleRow.user_id row) u
                                then RoleRow.with_role r row else row) l)) as Hin'.
    { apply in_map_iff. exists row. split; [|exact Hin].
      rewrite Hu, String.eqb_refl. unfold RoleRow.with_role. rewrite Hu. reflexivity. }
    apply (rows_of_unique RoleRow.user_id _ (RoleRow.mk u r)); [|exact Hin'].
    rewrite upsert_row_keys_kept. exact ND.
  - unfold rows_of. rewrite filter_app. cbn. rewrite String.eqb_refl.
    fold (rows_of RoleRow.user_id u l).
    rewrite (rows_of_absent RoleRow.user_id u l (existsb_user_absent u l E)).
    reflexivity.
Qed.

(** The upsert is idempotent on the table. *)
Lemma upsert_row_idempotent (u : string) (r : UserRole.t) (l : list RoleRow.t) :
  upsert_row u r (upsert_row u r l) = upsert_row u r l.
Proof.
  assert (existsb (fun row => String.eqb (RoleRow.user_id row) u) (upsert_row u r l)
          = true) as Hex.
  { unfold upsert_row. destruct (existsb _ l) eqn:E.
    - apply existsb_exists in E. destruct E as (row & Hin & Hu).
      apply existsb_exists.
      exists (if String.eqb (RoleRow.user_id row) u then RoleRow.with_role r row else row).
      split.
      + apply (in_map (fun row => if String.eqb (RoleRow.user_id row) u
                                  then RoleRow.with_role r row else row)).
        exact Hin.
      + rewrite Hu. exact Hu.
    - rewrite existsb_app. cbn. rewrite String.eqb_refl. apply orb_true_r. }
  unfold upsert_row at 1. rewrite Hex.
  unfold upsert_row. destruct (existsb _ l) eqn:E.
  - rewrite map_map. apply map_ext. intros row.
    destruct (String.eqb (RoleRow.user_id row) u) eqn:Eu; cbn; rewrite Eu; reflexivity.
  - rewrite map_app. cbn. rewrite String.eqb_refl. f_equal.
    rewrite <- (map_id l) at 2. apply map_ext_in. intros row Hin.
    destruct (String.eqb_spec (RoleRow.user_id row) u) as [Hu|Hu]; [|reflexivity].
    exfalso. exact (existsb_user_absent u l E row Hin Hu).
Qed.

(** With the role query finding nothing and the one request rejected, the
    resolver shows the rejected screen after two calls. *)
Lemma resolver_rejected (view0 : AppState.t) (u : string) (r : AccessRequest.t)
    (w : World App.State) :
  served 2 (net w) ->
  admin_rows u (db w) = [] ->
  request_rows u (db w) = [r] ->
  AccessRequest.status r = RequestStatus.rejected ->
  view_after view0 u w = AppState.rejected.
Proof.
  destruct w as [d n t c a [s v p ro]]. cbn [net db].
  intros Hs Ha Hr Hst.
  apply served_step in Hs. destruct Hs as [H1 Hs].
  apply served_step in Hs. destruct Hs as [H2 _].
  unfold_app.
  destruct (AppState.eqb view0 AppState.auth); cbn;
    rewrite H1; cbn; rewrite Ha; cbn; rewrite H2; cbn; rewrite Hr; cbn;
    rewrite Hst; reflexivity.
Qed.

(** C4: the admin rejects the one request [r] of a user [u], its calls
    served.  Whatever status the request had (approved in particular) and
    whatever row [u] had in [roles], the store is left without a role row
    for [u] and with the request rejected, and the next resolution for [u],
    its calls served, shows the rejected screen. *)
Theorem rejection_revokes_access (id u : string) (r : AccessRequest.t)
    (view0 : AppState.t)
    (wa : World AdminDashboard.State) (wu : World App.State) :
  request_rows u (db wa) = [r] ->
  AccessRequest.id r = id ->
  served 2 (net wa) ->
  served 2 (net wu) ->
  rows_of RoleRow.user_id u
    (roles (db (state_of (AdminDashboard.handleDecision id u Decision.rejected wa))))
  = []
  /\ request_rows u
       (db (state_of (AdminDashboard.handleDecision id u Decision.rejected wa)))
     = [AccessRequest.with_status RequestStatus.rejected r]
  /\ view_after view0 u
       (with_db (db (state_of (AdminDashboard.handleDecision id u Decision.rejected wa)))
                wu)
     = AppState.rejected.
Proof.
  intros Hr Hid Hs Hu.
  rewrite handleDecision_db.
  apply served_step in Hs. destruct Hs as [H1 Hs].
  apply served_step in Hs. destruct Hs as [H2 _].
  rewrite H1, H2. cbn [decision_db role_step Decision.status].
  assert (request_rows u (delete_role u (update_status id RequestStatus.rejected (db wa)))
          = [AccessRequest.with_status RequestStatus.rejected r]) as Hrows.
  { change (request_rows u (delete_role u
              (update_status id RequestStatus.rejected (db wa))))
      with (request_rows u (update_status id RequestStatus.rejected (db wa))).
    rewrite request_rows_update_status, Hr. cbn.
    rewrite Hid, String.eqb_refl. reflexivity. }
  split; [apply delete_role_rows|]. split; [exact Hrows|].
  apply (resolver_rejected view0 u (AccessRequest.with_status RequestStatus.rejected r)).
  - exact Hu.
  - apply delete_role_no_admin.
  - exact Hrows.
  - reflexivity.
Qed.

(** C4 at the sample store: [bob], approved, with a member row and sitting
    in the chat, is rejected from the roster tab. *)
Lemma rejection_revokes_access_witness :
  has_role_row sample_db "bob"
  /\ view_after AppState.loading "bob"
       (with_db (db (state_of (AdminDashboard.handleDecision "req-bob" "bob"
                                 Decision.rejected
                                 (dashboard_world [] AdminDashboard.usersTab))))
                (app_world [] AppState.chat))
     = AppState.rejected.
Proof.
  split.
  - exists (RoleRow.mk "bob" UserRole.member). split; [right; left|]; reflexivity.
  - apply (rejection_revokes_access "req-bob" "bob"
             (AccessRequest.mk "req-bob" "bob" "Bob" "to chat" RequestStatus.approved 10%N)
             AppState.loading
             (dashboard_world [] AdminDashboard.usersTab)
             (app_world [] AppState.chat)).
    + reflexivity.
    + reflexivity.
    + apply served_nil.
    + apply served_nil.
Defined.

(** C6: after an approval whose calls are served, over a table of roles
    with unique user ids, a second approval of the same request leaves, for
    any fate of its own calls, exactly one row for the user, with role
    [member]; the table is the one the first approval left, and its user
    ids are still unique. *)
Theorem approve_twice_one_member_row (id u : string)
    (w : World AdminDashboard.State) :
  NoDup (map RoleRow.user_id (roles (db w))) ->
  served 2 (net w) ->
  rows_of RoleRow.user_id u
    (roles (db (state_of (AdminDashboard.handleDecision id u Decision.approved
               (state_of (AdminDashboard.handleDecision id u Decision.approved w))))))
  = [RoleRow.mk u UserRole.member]
  /\ roles (db (state_of (AdminDashboard.handleDecision id u Decision.approved
               (state_of (AdminDashboard.handleDecision id u Decision.approved w)))))
     = roles (db (state_of (AdminDashboard.handleDecision id u Decision.approved w)))
  /\ NoDup (map RoleRow.user_id
       (roles (db (state_of (AdminDashboard.handleDecision id u Decision.approved
               (state_of (AdminDashboard.handleDecision id u Decision.approved w))))))).
Proof.
  intros ND Hs.
  set (w1 := state_of (AdminDashboard.handleDecision id u Decision.approved w)).
  assert (roles (db w1) = upsert_row u UserRole.member (roles (db w))) as E1.
  { unfold w1. rewrite handleDecision_db.
    apply served_step in Hs. destruct Hs as [H1 Hs].
    apply served_step in Hs. destruct Hs as [H2 _].
    rewrite H1, H2. reflexivity. }
  assert (roles (db (state_of (AdminDashboard.handleDecision id u Decision.approved w1)))
          = roles (db w1)) as E2.
  { rewrite handleDecision_db. unfold decision_db, role_step.
    destruct (hd Served (net w1)); [|reflexivity|reflexivity].
    destruct (hd Served (tl (net w1))); cbn [roles upsert_role update_status
      set_roles set_access_requests Decision.status]; try reflexivity.
    rewrite E1. apply upsert_row_idempotent. }
  rewrite E2, E1.
  split; [apply upsert_row_rows; exact ND|].
  split; [reflexivity | apply upsert_row_NoDup; exact ND].
Qed.

(** C6 at the sample store: [carol]'s request is approved twice from the
    pending queue, the second time with the role call failing. *)
Lemma approve_twice_one_member_row_witness :
  rows_of RoleRow.user_id "carol"
    (roles (db (state_of (AdminDashboard.handleDecision "req-carol" "carol"
                            Decision.approved
               (state_of (AdminDashboard.handleDecision "req-carol" "carol"
                            Decision.approved
                            (dashboard_world [Served; Served; Served; Failed "timeout"]
                                             AdminDashboard.requestsTab)))))))
  = [RoleRow.mk "carol" UserRole.member].
Proof.
  apply (approve_twice_one_member_row "req-carol" "carol"
           (dashboard_world [Served; Served; Served; Failed "timeout"]
                            AdminDashboard.requestsTab)).
  - repeat constructor; cbn; intuition discriminate.
  - repeat constructor.
Defined.

(* ================================================================== *)
(** * The message feed *)
(* ================================================================== *)

Section Ordering.
Context {A : Type} (le : A -> A -> bool) (R : A -> A -> Prop).
Hypothesis le_sound : forall a b, le a b = true -> R a b.
Hypothesis le_total : forall a b, le a b = false -> R b a.

Lemma insert_by_perm (x : A) (l : list A) : Permutation (insert_by le x l) (x :: l).
Proof.
  induction l as [|y l IH]; cbn; [reflexivity|].
  destruct (le x y); [reflexivity|].
  rewrite IH. apply perm_swap.
Qed.

Lemma order_by_perm (l : list A) : Permutation (order_by le l) l.
Proof.
  induction l as [|x l IH]; cbn; [reflexivity|].
  rewrite insert_by_perm. constructor. exact IH.
Qed.

Lemma insert_by_hd (x z : A) (l : list A) :
  R z x -> HdRel R z l -> HdRel R z (insert_by le x l).
Proof.
  intros Hzx Hl. destruct l as [|y l]; cbn; [constructor; exact Hzx|].
  destruct (le x y); constructor; [exact Hzx|].
  inversion Hl; assumption.
Qed.

Lemma insert_by_sorted (x : A) (l : list A) :
  Sorted R l -> Sorted R (insert_by le x l).
Proof.
  induction l as [|y l IH]; intros Hs; cbn.
  - repeat constructor.
  - inversion Hs as [|? ? Hl Hhd]; subst.
    destruct (le x y) eqn:E.
    + constructor; [exact Hs|]. constructor. apply le_sound. exact E.
    + constructor; [apply IH; exact Hl|].
      apply insert_by_hd; [apply le_total; exact E | exact Hhd].
Qed.

Lemma order_by_sorted (l : list A) : Sorted R (order_by le l).
Proof.
  induction l as [|x l IH]; cbn; [constructor|].
  apply insert_by_sorted. exact IH.
Qed.
End Ordering.



Ltac unfold_chat :=
  unfold ChatInterface.handleSendMessage, ChatInterface.handleImageUpload,
    ChatInterface.uploadAudio, ChatInterface.fetchMessages, ChatInterface.onInsert,
    ChatInterface.mount, detached,
    bind, try_catch, try_finally, throw, ret, get_ui,
    insertMessage, storageUpload, selectMessages, selectProfileSingle,
    mutate, query, call.

(** The handler of an insert event whose lookup is answered appends the
    message, with the profile found or the dummy one. *)
Lemma onInsert_served (ev : Message.t) (w : World ChatInterface.State) :
  hd Served (net w) = Served ->
  state_of (ChatInterface.onInsert ev w)
  = mkWorld (db w) (tl (net w))
            (trace w ++ [SelectProfileSingle (Message.sender_id ev)])
            (console w) (alerts w)
            (ChatInterface.mkState
               (ChatInterface.messages (ui w) ++ [attach (db w) ev])
               (ChatInterface.newMessage (ui w)) (ChatInterface.loading (ui w))
               (ChatInterface.sending (ui w)) (ChatInterface.isRecording (ui w))).
Proof.
  destruct w as [d n t c a [ms nm l sd rec]]. cbn [net db trace console alerts ui].
  intros H1. unfold_chat. cbn. rewrite H1. unfold attach. cbn.
  destruct (profile_rows (Message.sender_id ev) d) as [|p [|q rest]]; reflexivity.
Qed.

(** Events are appended one by one, in the order of their arrival. *)
Lemma deliver_served (events : list Message.t) (w : World ChatInterface.State) :
  served (length events) (net w) ->
  ChatInterface.messages (ui (state_of (ChatInterface.deliver events w)))
  = ChatInterface.messages (ui w) ++ map (attach (db w)) events.
Proof.
  revert w. induction events as [|ev rest IH]; intros w Hs.
  - cbn. rewrite app_nil_r. reflexivity.
  - cbn [length] in Hs. apply served_step in Hs. destruct Hs as [H1 Hs].
    cbn [ChatInterface.deliver]. unfold bind, detached.
    rewrite onInsert_served by exact H1.
    rewrite IH by exact Hs.
    cbn. rewrite <- app_assoc. reflexivity.
Qed.

(** The fetch of the mount effect, when served, installs the snapshot. *)
Lemma mount_served (w : World ChatInterface.State) :
  hd Served (net w) = Served ->
  state_of (ChatInterface.mount w)
  = mkWorld (db w) (tl (net w)) (trace w ++ [SelectMessages]) (console w) (alerts w)
            (ChatInterface.mkState (messages_with_profiles (db w))
               (ChatInterface.newMessage (ui w)) false
               (ChatInterface.sending (ui w)) (ChatInterface.isRecording (ui w))).
Proof.
  destruct w as [d n t c a [ms nm l sd rec]]. cbn [net db trace console alerts ui].
  intros H1. unfold ChatInterface.mount, detached. unfold_chat. cbn.
  rewrite H1. reflexivity.
Qed.

(** The mount followed by events, all served. *)
Lemma feed_snapshot_then_events (events : list Message.t)
    (w : World ChatInterface.State) :
  served (S (length events)) (net w) ->
  ChatInterface.messages
    (ui (state_of (bind ChatInterface.mount (fun _ => ChatInterface.deliver events) w)))
  = messages_with_profiles (db w) ++ map (attach (db w)) events.
Proof.
  intros Hs. apply served_step in Hs. destruct Hs as [H1 Hs].
  unfold bind. unfold ChatInterface.mount at 1. unfold detached at 1.
  change (state_of (ChatInterface.fetchMessages w))
    with (state_of (ChatInterface.mount w)).
  rewrite mount_served by exact H1.
  rewrite deliver_served by exact Hs. reflexivity.
Qed.



(** The fetch replaces the list: events handled before its response
    arrives are overwritten by the snapshot. *)
Lemma events_before_snapshot_are_replaced (early late : list Message.t)
    (w : World ChatInterface.State) :
  net w = [] ->
  ChatInterface.messages
    (ui (state_of
           (bind (ChatInterface.deliver early)
                 (fun _ => bind ChatInterface.mount
                                (fun _ => ChatInterface.deliver late)) w)))
  = messages_with_profiles (db w) ++ map (attach (db w)) late.
Proof.
  revert w. induction early as [|ev rest IH]; intros w Hn.
  - change (bind (ChatInterface.deliver []) (fun _ => bind ChatInterface.mount
              (fun _ => ChatInterface.deliver late)) w)
      with (bind ChatInterface.mount (fun _ => ChatInterface.deliver late) w).
    apply feed_snapshot_then_events. rewrite Hn. apply served_nil.
  - cbn [ChatInterface.deliver]. unfold bind at 1 2. unfold detached at 1.
    assert (hd Served (net w) = Served) as H1 by (rewrite Hn; reflexivity).
    rewrite (onInsert_served ev w H1).
    match goal with
    | |- context [ChatInterface.deliver rest ?w1] =>
        assert (net w1 = []) as Hn1 by (cbn [net]; rewrite Hn; reflexivity);
        specialize (IH w1 Hn1); cbn [db] in IH; unfold bind at 1 in IH
    end.
    exact IH.
Qed.

(** The admin path of the resolver stores the profile found or, without a
    profile row, the temp profile. *)
Lemma admin_without_profile (view0 : AppState.t) (u : string) (w : World App.State) :
  served 2 (net w) ->
  admin_rows u (db w) = [UserRole.admin] ->
  profile_rows u (db w) = [] ->
  App.userProfile (ui (state_of (App.determineView view0 u w)))
  = Some (App.adminTempProfile u).
Proof.
  destruct w as [d n t c a [s v p ro]]. cbn [net db].
  intros Hs Ha Hp.
  apply served_step in Hs. destruct Hs as [H1 Hs].
  apply served_step in Hs. destruct Hs as [H2 _].
  unfold_app.
  destruct (AppState.eqb view0 AppState.auth); cbn;
    rewrite H1; cbn; rewrite Ha; cbn; rewrite H2; cbn; rewrite Hp; reflexivity.
Qed.

(** C8, as it is stated, fails: for [root], an admin without profile row,
    the feed attaches a profile that is not the one the resolver stores;
    the two differ in [id], [bio] and [dp_url]. *)
Lemma feed_placeholder_differs :
  profile_rows "root" sample_db = []
  /\ ChatInterface.messages
       (ui (state_of (ChatInterface.onInsert sample_event (chat_world [] ""))))
     = [Message.with_profiles (Some (ChatInterface.dummyProfile "root")) sample_event]
  /\ App.userProfile
       (ui (state_of (App.determineView AppState.loading "root"
                        (app_world [] AppState.loading))))
     = Some (App.adminTempProfile "root")
  /\ ChatInterface.dummyProfile "root" <> App.adminTempProfile "root".
Proof.
  repeat split; try reflexivity. discriminate.
Qed.

(** C8, amended: for an insert event whose sender has no profile row, the
    lookup being answered, the feed attaches its own dummy profile; it has
    the display name ['Admin'] and the user id of the profile that the
    resolver stores for an admin without profile row, and like it no
    picture, but its own [id] (['admin']), [bio] (['Administrator']) and
    [dp_url] ([null], not the empty string). *)
Theorem feed_placeholder_shares_name (ev : Message.t)
    (w : World ChatInterface.State) (view0 : AppState.t) (wu : World App.State) :
  profile_rows (Message.sender_id ev) (db w) = [] ->
  answered (hd Served (net w)) ->
  has_admin_role (db wu) (Message.sender_id ev) ->
  NoDup (map RoleRow.user_id (roles (db wu))) ->
  profile_rows (Message.sender_id ev) (db wu) = [] ->
  served 2 (net wu) ->
  ChatInterface.messages (ui (state_of (ChatInterface.onInsert ev w)))
  = ChatInterface.messages (ui w)
    ++ [Message.with_profiles
          (Some (ChatInterface.dummyProfile (Message.sender_id ev))) ev]
  /\ App.userProfile (ui (state_of (App.determineView view0 (Message.sender_id ev) wu)))
     = Some (App.adminTempProfile (Message.sender_id ev))
  /\ Profile.username (ChatInterface.dummyProfile (Message.sender_id ev))
     = Profile.username (App.adminTempProfile (Message.sender_id ev))
  /\ Profile.username (ChatInterface.dummyProfile (Message.sender_id ev)) = "Admin"
  /\ Profile.user_id (ChatInterface.dummyProfile (Message.sender_id ev))
     = Profile.user_id (App.adminTempProfile (Message.sender_id ev))
  /\ no_media (ChatInterface.dummyProfile (Message.sender_id ev))
  /\ no_media (App.adminTempProfile (Message.sender_id ev))
  /\ Profile.id (ChatInterface.dummyProfile (Message.sender_id ev)) = "admin"
  /\ Profile.bio (ChatInterface.dummyProfile (Message.sender_id ev)) = "Administrator"
  /\ Profile.dp_url (ChatInterface.dummyProfile (Message.sender_id ev)) = None.
Proof.
  intros Hp Hans Ha ND Hpu Hs.
  split.
  - destruct w as [d n t c a [ms nm l sd rec]]. cbn [net db ui] in *.
    unfold_chat. cbn.
    destruct (hd Served n) as [|e|e]; cbn; [rewrite Hp | | contradiction]; reflexivity.
  - split.
    + apply admin_without_profile; [exact Hs | | exact Hpu].
      apply admin_rows_one; assumption.
    + repeat split; try reflexivity; [left | right]; reflexivity.
Qed.

(** The amended C8 at the sample store, for the event of [root]. *)
Lemma feed_placeholder_shares_name_witness :
  ChatInterface.messages
    (ui (state_of (ChatInterface.onInsert sample_event (chat_world [] ""))))
  = [Message.mk "m0" "root" MessageType.text "hi" 5%N
       (Some (Profile.mk "admin" "root" "Admin" "Administrator" None))].
Proof.
  assert (NoDup (map RoleRow.user_id (roles sample_db))) as ND.
  { repeat constructor; cbn; intuition discriminate. }
  assert (has_admin_role sample_db "root") as Ha by (left; reflexivity).
  assert (served 2 (@nil Fault)) as Hs by (apply served_nil).
  destruct (feed_placeholder_shares_name sample_event (chat_world [] "")
              AppState.loading (app_world [] AppState.loading)
              eq_refl I Ha ND eq_refl Hs) as [E _].
  rewrite E. reflexivity.
Defined.

(* ================================================================== *)
(** * Failures of the workflows *)
(* ================================================================== *)

(** C9, as it is stated, fails: a text send answered by an error response
    shows no notice and empties the composer as a successful send does; an
    image upload that fails is logged to the console and shows no notice
    either. *)
Lemma failed_send_is_silent_and_clears :
  (ChatInterface.newMessage
     (ui (state_of (ChatInterface.handleSendMessage "bob" MessageType.text "hello"
                      (chat_world [Failed "permission denied"] "hello"))))
   = ""
   /\ alerts (state_of (ChatInterface.handleSendMessage "bob" MessageType.text "hello"
                          (chat_world [Failed "permission denied"] "hello")))
      = []
   /\ messages (db (state_of (ChatInterface.handleSendMessage "bob" MessageType.text
                                "hello"
                                (chat_world [Failed "permission denied"] "hello"))))
      = messages sample_db)
  /\ (alerts (state_of (ChatInterface.handleImageUpload sample_url "bob"
                          (Some sample_file) 1700000000000%N
                          (chat_world [Failed "bucket not found"] "")))
      = []
      /\ console (state_of (ChatInterface.handleImageUpload sample_url "bob"
                              (Some sample_file) 1700000000000%N
                              (chat_world [Failed "bucket not found"] "")))
         = ["Error uploading image:"]).
Proof. repeat split; reflexivity. Qed.

(** C9, amended: every failure that the code notices clears the busy
    marker and applies nothing to the local state.  A decision whose status
    update fails, or whose call on [roles] rejects, shows the failure
    notice and leaves the lists of the dashboard as they were.  An image or
    audio upload that fails submits no message and leaves composer and
    feed as they were; a send whose request rejects leaves them too; both
    are logged to the console and show no notice. *)
Theorem noticed_failures_restore_the_ui
    (url user id u content e : string) (decision : Decision.t)
    (ty : MessageType.t) (file : File) (blob : string) (now : N)
    (wd : World AdminDashboard.State) (wi wa wt : World ChatInterface.State) :
  decision_fails (net wd) ->
  fails (hd Served (net wi)) ->
  fails (hd Served (net wa)) ->
  hd Served (net wt) = Rejected e ->
  (alerts (state_of (AdminDashboard.handleDecision id u decision wd))
   = alerts wd ++ ["Failed to update user status"]
   /\ ui (state_of (AdminDashboard.handleDecision id u decision wd)) = idle (ui wd))
  /\ (db (state_of (ChatInterface.handleImageUpload url user (Some file) now wi))
      = db wi
      /\ alerts (state_of (ChatInterface.handleImageUpload url user (Some file) now wi))
         = alerts wi
      /\ console (state_of (ChatInterface.handleImageUpload url user (Some file) now wi))
         = console wi ++ ["Error uploading image:"]
      /\ ui (state_of (ChatInterface.handleImageUpload url user (Some file) now wi))
         = not_sending (ui wi))
  /\ (db (state_of (ChatInterface.uploadAudio url user blob now wa)) = db wa
      /\ alerts (state_of (ChatInterface.uploadAudio url user blob now wa)) = alerts wa
      /\ console (state_of (ChatInterface.uploadAudio url user blob now wa))
         = console wa ++ ["Error uploading audio:"]
      /\ ui (state_of (ChatInterface.uploadAudio url user blob now wa))
         = not_sending (ui wa))
  /\ (db (state_of (ChatInterface.handleSendMessage user ty content wt)) = db wt
      /\ alerts (state_of (ChatInterface.handleSendMessage user ty content wt))
         = alerts wt
      /\ console (state_of (ChatInterface.handleSendMessage user ty content wt))
         = console wt ++ [e]
      /\ ui (state_of (ChatInterface.handleSendMessage user ty content wt))
         = not_sending (ui wt)).
Proof.
  intros Hd Hi Ha Ht.
  split; [|split; [|split]].
  - destruct wd as [d n t c a [tab rs us l al q]].
    cbn [net alerts ui] in *. unfold idle. cbn.
    unfold_dashboard. cbn.
    destruct Hd as [Hf | [H1 [e2 H2]]].
    + unfold fails in Hf.
      destruct (hd Served n) as [|e1|e1]; cbn; [contradiction | | ]; split; reflexivity.
    + rewrite H1. cbn. destruct decision; cbn; rewrite H2; cbn; split; reflexivity.
  - destruct wi as [d n t c a [ms nm l sd rec]].
    cbn [net db alerts console ui] in *. unfold not_sending, fails in *. cbn.
    unfold_chat. cbn.
    destruct (hd Served n) as [|e1|e1]; cbn; [contradiction | | ];
      repeat split; reflexivity.
  - destruct wa as [d n t c a [ms nm l sd rec]].
    cbn [net db alerts console ui] in *. unfold not_sending, fails in *. cbn.
    unfold_chat. cbn.
    destruct (hd Served n) as [|e1|e1]; cbn; [contradiction | | ];
      repeat split; reflexivity.
  - destruct wt as [d n t c a [ms nm l sd rec]].
    cbn [net db alerts console ui] in *. unfold not_sending. cbn.
    unfold_chat. cbn. rewrite Ht. cbn. repeat split; reflexivity.
Qed.

(** The amended C9 at the sample store: a refused status update, two
    refused uploads and a send whose request rejects. *)
Lemma noticed_failures_restore_the_ui_witness :
  alerts (state_of (AdminDashboard.handleDecision "req-carol" "carol" Decision.approved
                      (dashboard_world [Failed "permission denied"]
                                       AdminDashboard.requestsTab)))
  = ["Failed to update user status"]
  /\ ChatInterface.newMessage
       (ui (state_of (ChatInterface.handleSendMessage "bob" MessageType.text "hello"
                        (chat_world [Rejected "network down"] "hello"))))
     = "hello".
Proof.
  assert (decision_fails (net (dashboard_world [Failed "permission denied"]
                                               AdminDashboard.requestsTab))) as Hd.
  { left. cbn. discriminate. }
  assert (fails (hd Served (net (chat_world [Failed "bucket not found"] "hello"))))
    as Hu.
  { cbn. discriminate. }
  assert (hd Served (net (chat_world [Rejected "network down"] "hello"))
          = Rejected "network down") as Ht by reflexivity.
  destruct (noticed_failures_restore_the_ui sample_url "bob" "req-carol" "carol"
              "hello" "network down" Decision.approved MessageType.text
              sample_file "1a45dfa3" 1700000000000%N
              (dashboard_world [Failed "permission denied"] AdminDashboard.requestsTab)
              (chat_world [Failed "bucket not found"] "hello")
              (chat_world [Failed "bucket not found"] "hello")
              (chat_world [Rejected "network down"] "hello")
              Hd Hu Hu Ht)
    as ((Hal & _) & _ & _ & (_ & _ & _ & Hui)).
  split; [rewrite Hal; reflexivity | rewrite Hui; reflexivity].
Defined.

(* ================================================================== *)
(** * Further properties: file names and search *)
(* ================================================================== *)

Lemma split_dot_nonempty (s : string) : split_dot s <> [].
Proof.
  destruct s as [|c s]; cbn; [discriminate|].
  destruct (Ascii.eqb c "."); [discriminate|].
  destruct (split_dot s); discriminate.
Qed.

Lemma split_dot_app (a b : string) :
  split_dot (a ++ String "." b)%string = split_dot a ++ split_dot b.
Proof.
  induction a as [|c a IH]; cbn; [reflexivity|].
  destruct (Ascii.eqb c "."); rewrite IH; [reflexivity|].
  pose proof (split_dot_nonempty a) as Hne.
  destruct (split_dot a) as [|h t]; [contradiction | reflexivity].
Qed.

Lemma split_dot_dot_free (s : string) : dot_free s -> split_dot s = [s].
Proof.
  unfold dot_free. induction s as [|c s IH]; cbn; intros H; [reflexivity|].
  destruct (Ascii.eqb_spec c ".") as [->|Hc]; [exfalso; apply H; left; reflexivity|].
  rewrite IH; [reflexivity|]. intros Hin. apply H. right. exact Hin.
Qed.

Lemma split_dot_pieces (s : string) : Forall dot_free (split_dot s).
Proof.
  induction s as [|c s IH]; cbn.
  - constructor; [intros []|constructor].
  - destruct (Ascii.eqb_spec c ".") as [->|Hc].
    + constructor; [intros []|exact IH].
    + pose proof (split_dot_nonempty s) as Hne.
      destruct (split_dot s) as [|h t]; [contradiction|].
      inversion IH as [|? ? Hh Ht]; subst.
      constructor; [|exact Ht].
      unfold dot_free in *. cbn. intros [E|Hin]; [apply Hc; exact E|].
      exact (Hh Hin).
Qed.

(** X1: the extension taken from a file name never contains a dot; a name
    without dot is its own extension; a name that ends in a dot and a
    dot-free suffix has that suffix as extension. *)
Theorem fileExt_spec (name base ext : string) :
  dot_free (fileExt name)
  /\ (dot_free name -> fileExt name = name)
  /\ (dot_free ext -> fileExt (base ++ "." ++ ext)%string = ext).
Proof.
  unfold fileExt. split; [|split].
  - pose proof (split_dot_pieces name) as H.
    pose proof (split_dot_nonempty name) as Hne.
    apply Forall_forall with (x := last (split_dot name) EmptyString) in H; [exact H|].
    destruct (exists_last Hne) as (l & x & E). rewrite E, last_last.
    apply in_or_app. right. left. reflexivity.
  - intros H. rewrite (split_dot_dot_free _ H). reflexivity.
  - intros H. change (base ++ "." ++ ext)%string with (base ++ String "." ext)%string.
    rewrite split_dot_app, (split_dot_dot_free _ H).
    apply last_last.
Qed.

(** X1 on two names: a double extension and a name without dot. *)
Lemma fileExt_spec_witness :
  fileExt "archive.tar.gz" = "gz" /\ fileExt "README" = "README".
Proof.
  destruct (fileExt_spec "README" "archive.tar" "gz") as (_ & Hname & Hext).
  split.
  - apply Hext. intros H. cbn in H.
    repeat (destruct H as [H|H]; [inversion H|]). exact H.
  - apply Hname. intros H. cbn in H.
    repeat (destruct H as [H|H]; [inversion H|]). exact H.
Defined.

(** X2: joining the pieces of [split('.')] with dots gives the string
    back. *)
Theorem split_dot_join (s : string) : String.concat "." (split_dot s) = s.
Proof.
  induction s as [|c s IH]; [reflexivity|].
  cbn [split_dot].
  pose proof (split_dot_nonempty s) as Hne.
  destruct (Ascii.eqb_spec c ".") as [->|Hc].
  - destruct (split_dot s) as [|h t]; [contradiction|].
    cbn [String.concat]. cbn in IH |- *. rewrite IH. reflexivity.
  - destruct (split_dot s) as [|h t]; [contradiction|].
    destruct t as [|h' t]; cbn in IH |- *; rewrite <- IH; reflexivity.
Qed.







(* ================================================================== *)
(** * Further properties: the chat *)
(* ================================================================== *)

(** X4: whatever the network does, sending a message issues exactly one
    call, the insert, leaves the list of displayed messages alone (the
    sender's own message is not shown before its insert event), shows no
    notice and ends with the busy marker cleared. *)
Theorem send_leaves_feed_alone (user content : string) (ty : MessageType.t)
    (w : World ChatInterface.State) :
  ChatInterface.messages
    (ui (state_of (ChatInterface.handleSendMessage user ty content w)))
  = ChatInterface.messages (ui w)
  /\ ChatInterface.sending
       (ui (state_of (ChatInterface.handleSendMessage user ty content w)))
     = false
  /\ alerts (state_of (ChatInterface.handleSendMessage user ty content w)) = alerts w
  /\ trace (state_of (ChatInterface.handleSendMessage user ty content w))
     = trace w ++ [InsertMessage user ty content].
Proof.
  destruct w as [d n t c a [ms nm l sd rec]]. cbn [trace alerts ui].
  unfold_chat. cbn.
  destruct (hd Served n) as [|e|e]; cbn; repeat split; reflexivity.
Qed.

(** X5: round trip of a message.  A send whose insert is served adds one
    row to [messages] with the sender, the type and the content given, and
    when the insert event of that row is handled, its lookup served, the
    row is displayed last, with the profile row of the sender. *)
Theorem sent_message_comes_back (user content : string) (ty : MessageType.t)
    (p : Profile.t) (w : World ChatInterface.State) :
  served 2 (net w) ->
  profile_rows user (db w) = [p] ->
  exists row,
    messages (db (state_of (ChatInterface.handleSendMessage user ty content w)))
    = messages (db w) ++ [row]
    /\ Message.sender_id row = user
    /\ Message.type row = ty
    /\ Message.content row = content
    /\ ChatInterface.messages
         (ui (state_of (ChatInterface.onInsert row
                (state_of (ChatInterface.handleSendMessage user ty content w)))))
       = ChatInterface.messages (ui w) ++ [Message.with_profiles (Some p) row].
Proof.
  intros Hs Hp.
  apply served_step in Hs. destruct Hs as [H1 Hs].
  apply served_step in Hs. destruct Hs as [H2 _].
  destruct w as [d n t c a [ms nm l sd rec]]. cbn [net db ui] in *.
  exists (Message.mk ("uuid-" ++ decimal (uuids d))%string user ty content (clock d) None).
  unfold_chat. cbn. rewrite H1. cbn. rewrite H2. cbn.
  repeat split; try reflexivity.
  unfold profile_rows in *. cbn in *. rewrite Hp. reflexivity.
Qed.

(** X5 at the sample store: [bob] sends a text. *)
Lemma sent_message_comes_back_witness :
  exists row,
    messages (db (state_of (ChatInterface.handleSendMessage "bob" MessageType.text
                              "hello" (chat_world [] "hello"))))
    = messages sample_db ++ [row]
    /\ Message.content row = "hello".
Proof.
  destruct (sent_message_comes_back "bob" "hello" MessageType.text
              (Profile.mk "p-bob" "bob" "bobby" "hello" None)
              (chat_world [] "hello") (served_nil 2) eq_refl)
    as (row & Hrow & _ & _ & Hc & _).
  exists row. split; assumption.
Defined.



(** X7: a recording whose two calls are served is stored under
    [audio/<user>-<now>.webm] and sent as one message of type audio whose
    content is the public URL of that object. *)
Theorem audio_upload_stores_then_sends (url user blob : string) (now : N)
    (w : World ChatInterface.State) :
  served 2 (net w) ->
  exists row,
    bucket (db (state_of (ChatInterface.uploadAudio url user blob now w)))
    = bucket (db w)
      ++ [(("audio/" ++ user ++ "-" ++ decimal now ++ ".webm")%string, blob)]
    /\ messages (db (state_of (ChatInterface.uploadAudio url user blob now w)))
       = messages (db w) ++ [row]
    /\ Message.sender_id row = user
    /\ Message.type row = MessageType.audio
    /\ Message.content row
       = ChatInterface.publicUrl url
           ("audio/" ++ user ++ "-" ++ decimal now ++ ".webm")%string
    /\ ChatInterface.sending
         (ui (state_of (ChatInterface.uploadAudio url user blob now w))) = false.
Proof.
  intros Hs.
  apply served_step in Hs. destruct Hs as [H1 Hs].
  apply served_step in Hs. destruct Hs as [H2 _].
  destruct w as [d n t c a [ms nm l sd rec]]. cbn [net db ui] in *.
  eexists. unfold_chat. cbn. rewrite H1. cbn. unfold_chat. cbn. rewrite H2. cbn.
  repeat split; reflexivity.
Qed.

(** X7 at the sample store: [bob] sends a recording. *)
Lemma audio_upload_stores_then_sends_witness :
  map fst (bucket (db (state_of (ChatInterface.uploadAudio sample_url "bob" "1a45dfa3"
                                   1700000000000%N (chat_world [] "")))))
  = ["audio/bob-1700000000000.webm"].
Proof.
  destruct (audio_upload_stores_then_sends sample_url "bob" "1a45dfa3"
              1700000000000%N (chat_world [] "") (served_nil 2))
    as (row & Hb & _).
  rewrite Hb. reflexivity.
Defined.

(** X8: when the upload is served and the insert of the message is
    answered by an error response, the object stays in the bucket while no
    message refers to it; nothing is logged and no notice is shown. *)
Theorem upload_without_message (url user e : string) (file : File) (now : N)
    (rest : list Fault) (w : World ChatInterface.State) :
  net w = Served :: Failed e :: rest ->
  bucket (db (state_of (ChatInterface.handleImageUpload url user (Some file) now w)))
  = bucket (db w)
    ++ [(("images/" ++ user ++ "-" ++ decimal now ++ "."
          ++ fileExt (file_name file))%string,
         file_payload file)]
  /\ messages (db (state_of (ChatInterface.handleImageUpload url user (Some file) now w)))
     = messages (db w)
  /\ console (state_of (ChatInterface.handleImageUpload url user (Some file) now w))
     = console w
  /\ alerts (state_of (ChatInterface.handleImageUpload url user (Some file) now w))
     = alerts w.
Proof.
  destruct w as [d n t c a [ms nm l sd rec]]. cbn [net db console alerts].
  intros ->. unfold_chat. cbn. unfold_chat. cbn. repeat split; reflexivity.
Qed.

(** X8 at the sample store. *)
Lemma upload_without_message_witness :
  length (bucket (db (state_of (ChatInterface.handleImageUpload sample_url "bob"
                                  (Some sample_file) 1700000000000%N
                                  (chat_world [Served; Failed "permission denied"] "")))))
  = 1
  /\ messages (db (state_of (ChatInterface.handleImageUpload sample_url "bob"
                               (Some sample_file) 1700000000000%N
                               (chat_world [Served; Failed "permission denied"] ""))))
     = messages sample_db.
Proof.
  destruct (upload_without_message sample_url "bob" "permission denied" sample_file
              1700000000000%N []
              (chat_world [Served; Failed "permission denied"] "") eq_refl)
    as (Hb & Hm & _).
  split; [rewrite Hb; reflexivity | exact Hm].
Defined.

(** X9: when the profile lookup of an insert event is answered by an error
    response, the message is displayed under the dummy ['Admin'] profile,
    whatever profile row its sender has; when the lookup rejects, the event
    is dropped: the state of the chat is as before and nothing is logged. *)
Theorem lookup_failure_in_feed (ev : Message.t) (e : string)
    (w : World ChatInterface.State) :
  (hd Served (net w) = Failed e ->
   ChatInterface.messages (ui (state_of (ChatInterface.onInsert ev w)))
   = ChatInterface.messages (ui w)
     ++ [Message.with_profiles
           (Some (ChatInterface.dummyProfile (Message.sender_id ev))) ev])
  /\ (hd Served (net w) = Rejected e ->
      ui (state_of (ChatInterface.onInsert ev w)) = ui w
      /\ console (state_of (ChatInterface.onInsert ev w)) = console w
      /\ alerts (state_of (ChatInterface.onInsert ev w)) = alerts w).
Proof.
  destruct w as [d n t c a [ms nm l sd rec]]. cbn [net ui console alerts].
  split; intros H; unfold_chat; cbn; rewrite H; cbn; repeat split; reflexivity.
Qed.

(** X9 at the sample store: a message of [bob], who has a profile, arrives
    while the lookup fails. *)
Lemma lookup_failure_in_feed_witness :
  has_profile sample_db "bob"
  /\ map Message.profiles
       (ChatInterface.messages
          (ui (state_of (ChatInterface.onInsert
                 (Message.mk "m3" "bob" MessageType.text "again" 30%N None)
                 (chat_world [Failed "timeout"] "")))))
     = [Some (Profile.mk "admin" "bob" "Admin" "Administrator" None)].
Proof.
  split.
  - eexists. split; [left; reflexivity | reflexivity].
  - destruct (lookup_failure_in_feed
                (Message.mk "m3" "bob" MessageType.text "again" 30%N None) "timeout"
                (chat_world [Failed "timeout"] "")) as [H _].
    rewrite (H eq_refl). reflexivity.
Defined.

(** X10: a fetch of the messages answered by an error response leaves the
    list as it was and stops the loader; a fetch whose promise rejects
    leaves the list as it was and the loader running. *)
Theorem failed_fetch_of_messages (e : string) (w : World ChatInterface.State) :
  (hd Served (net w) = Failed e ->
   ChatInterface.messages (ui (state_of (ChatInterface.fetchMessages w)))
   = ChatInterface.messages (ui w)
   /\ ChatInterface.loading (ui (state_of (ChatInterface.fetchMessages w))) = false)
  /\ (hd Served (net w) = Rejected e ->
      ChatInterface.messages (ui (state_of (ChatInterface.fetchMessages w)))
      = ChatInterface.messages (ui w)
      /\ ChatInterface.loading (ui (state_of (ChatInterface.fetchMessages w))) = true).
Proof.
  destruct w as [d n t c a [ms nm l sd rec]]. cbn [net ui].
  split; intros H; unfold_chat; cbn; rewrite H; cbn; split; reflexivity.
Qed.

(** X10 at the sample store: the promise of the fetch rejects. *)
Lemma failed_fetch_of_messages_witness :
  ChatInterface.loading
    (ui (state_of (ChatInterface.fetchMessages (chat_world [Rejected "offline"] ""))))
  = true.
Proof.
  destruct (failed_fetch_of_messages "offline" (chat_world [Rejected "offline"] ""))
    as [_ H].
  exact (proj2 (H eq_refl)).
Defined.

(** One event adds at most one entry, at the end. *)
Lemma onInsert_appends (ev : Message.t) (w : World ChatInterface.State) :
  exists kept,
    ChatInterface.messages (ui (state_of (ChatInterface.onInsert ev w)))
    = ChatInterface.messages (ui w) ++ kept
    /\ (kept = [] \/ exists p, kept = [Message.with_profiles (Some p) ev]).
Proof.
  destruct w as [d n t c a [ms nm l sd rec]]. cbn [ui].
  unfold_chat. cbn.
  destruct (hd Served n) as [|e|e]; cbn.
  - eexists. split; [reflexivity|]. right. eexists. reflexivity.
  - eexists. split; [reflexivity|]. right. eexists. reflexivity.
  - exists []. rewrite app_nil_r. split; [reflexivity | left; reflexivity].
Qed.

(** X11: whatever the network does, handling insert events only appends
    to the displayed list: the messages shown before stay in place, at most
    one entry is added per event, and every added entry is one of the
    events with a profile attached. *)
Theorem feed_only_grows (events : list Message.t) (w : World ChatInterface.State) :
  exists kept,
    ChatInterface.messages (ui (state_of (ChatInterface.deliver events w)))
    = ChatInterface.messages (ui w) ++ kept
    /\ length kept <= length events
    /\ Forall (fun m => exists ev p,
                 In ev events /\ m = Message.with_profiles (Some p) ev)
              kept.
Proof.
  revert w. induction events as [|ev rest IH]; intros w.
  - exists []. cbn. rewrite app_nil_r. repeat split; [lia | constructor].
  - cbn [ChatInterface.deliver]. unfold bind, detached.
    destruct (onInsert_appends ev w) as (k1 & E1 & Hk1).
    destruct (IH (state_of (ChatInterface.onInsert ev w))) as (k2 & E2 & Hlen & Hall).
    exists (k1 ++ k2). rewrite E2, E1, app_assoc. split; [reflexivity|].
    split.
    + rewrite length_app. cbn [length].
      destruct Hk1 as [-> | [p ->]]; cbn; lia.
    + apply Forall_app. split.
      * destruct Hk1 as [-> | [p ->]]; constructor; [|constructor].
        exists ev, p. split; [left; reflexivity | reflexivity].
      * apply Forall_forall. intros m Hm.
        rewrite Forall_forall in Hall. destruct (Hall m Hm) as (ev' & p & Hin & ->).
        exists ev', p. split; [right; exact Hin | reflexivity].
Qed.

(* ================================================================== *)
(** * Further properties: the dashboard *)
(* ================================================================== *)

Lemma status_eqb_eq (a b : RequestStatus.t) : RequestStatus.eqb a b = true <-> a = b.
Proof. destruct a, b; cbn; split; congruence. Qed.

Lemma newest_first_sorted (l : list AccessRequest.t) :
  Sorted newer_first
    (order_by (fun a b => N.leb (AccessRequest.created_at b) (AccessRequest.created_at a))
              l).
Proof.
  apply order_by_sorted; unfold newer_first; intros a b H.
  - apply N.leb_le. exact H.
  - apply N.leb_gt in H. lia.
Qed.

(** X12: a roster fetch whose two queries are served lists exactly the
    requests that are not pending, newest first, each with the profile row
    of its user when the store has one and only with a profile of that
    user, and stops the loader. *)
Theorem roster_lists_decided_requests (w : World AdminDashboard.State) :
  served 2 (net w) ->
  map AdminDashboard.request
      (AdminDashboard.allUsers (ui (state_of (AdminDashboard.fetchAllUsers w))))
  = decided_requests (db w)
  /\ Sorted newer_first (decided_requests (db w))
  /\ Permutation (decided_requests (db w)) (decided_rows (db w))
  /\ Forall (fun u =>
       AccessRequest.status (AdminDashboard.request u) <> RequestStatus.pending
       /\ (forall p, AdminDashboard.profile u = Some p ->
             In p (profiles (db w))
             /\ Profile.user_id p = AccessRequest.user_id (AdminDashboard.request u))
       /\ (has_profile (db w) (AccessRequest.user_id (AdminDashboard.request u)) ->
             AdminDashboard.profile u <> None))
       (AdminDashboard.allUsers (ui (state_of (AdminDashboard.fetchAllUsers w))))
  /\ AdminDashboard.loading (ui (state_of (AdminDashboard.fetchAllUsers w))) = false.
Proof.
  intros Hs.
  apply served_step in Hs. destruct Hs as [H1 Hs].
  apply served_step in Hs. destruct Hs as [H2 _].
  destruct w as [d n t c a [tab rs us l al q]]. cbn [net db ui] in *.
  assert (Permutation (decided_requests d) (decided_rows d)) as Hperm
    by apply order_by_perm.
  unfold_dashboard. cbn. rewrite H1. cbn. rewrite H2. cbn.
  split; [rewrite map_map; cbn; apply map_id|].
  split; [apply newest_first_sorted|]. split; [exact Hperm|].
  split; [|reflexivity].
  apply Forall_forall. intros u Hu.
  apply in_map_iff in Hu. destruct Hu as (req & <- & Hreq). cbn.
  assert (In req (decided_rows d)) as Hrow
    by (apply (Permutation_in _ Hperm); exact Hreq).
  apply filter_In in Hrow. destruct Hrow as [_ Hst].
  split; [|split].
  - intros E. rewrite E in Hst. discriminate Hst.
  - intros p Hp. apply find_some in Hp. destruct Hp as [Hin Hk].
    apply filter_In in Hin. split; [exact (proj1 Hin)|].
    apply String.eqb_eq. exact Hk.
  - intros (p & Hin & Hk) Hnone.
    assert (In p (profiles_in (map AccessRequest.user_id (decided_requests d)) d))
      as Hp.
    { apply filter_In. split; [exact Hin|].
      apply existsb_exists. exists (AccessRequest.user_id req).
      split; [apply in_map; exact Hreq | apply String.eqb_eq; exact Hk]. }
    pose proof (find_none _ _ Hnone p Hp) as Hf. cbn in Hf.
    apply String.eqb_eq in Hk. rewrite Hk in Hf. discriminate Hf.
Qed.

(** X12 at the sample store: [bob]'s request, the one decided, is listed. *)
Lemma roster_lists_decided_requests_witness :
  map AdminDashboard.request
      (AdminDashboard.allUsers
         (ui (state_of (AdminDashboard.fetchAllUsers
                          (dashboard_world [] AdminDashboard.usersTab)))))
  = [AccessRequest.mk "req-bob" "bob" "Bob" "to chat" RequestStatus.approved 10%N].
Proof.
  destruct (roster_lists_decided_requests
              (dashboard_world [] AdminDashboard.usersTab) (served_nil 2))
    as (Hreq & _).
  rewrite Hreq. reflexivity.
Defined.

(** X13: when the request query of a roster fetch is answered by an error
    response, the roster on the screen stays as it was, no profile query is
    issued and the loader stops; when only the profile query is, the
    decided requests are listed, each without profile. *)
Theorem roster_fetch_failures (e : string) (rest : list Fault)
    (w : World AdminDashboard.State) :
  (net w = Failed e :: rest ->
   AdminDashboard.allUsers (ui (state_of (AdminDashboard.fetchAllUsers w)))
   = AdminDashboard.allUsers (ui w)
   /\ trace (state_of (AdminDashboard.fetchAllUsers w))
      = trace w ++ [SelectDecidedRequests]
   /\ AdminDashboard.loading (ui (state_of (AdminDashboard.fetchAllUsers w))) = false)
  /\ (net w = Served :: Failed e :: rest ->
      AdminDashboard.allUsers (ui (state_of (AdminDashboard.fetchAllUsers w)))
      = map (fun r => AdminDashboard.mkUserView r None) (decided_requests (db w))
      /\ AdminDashboard.loading (ui (state_of (AdminDashboard.fetchAllUsers w)))
         = false).
Proof.
  destruct w as [d n t c a [tab rs us l al q]]. cbn [net db ui trace].
  split; intros ->; unfold_dashboard; cbn; repeat split; reflexivity.
Qed.

(** X13 at the sample store: the profile query fails and [bob] is listed
    without profile. *)
Lemma roster_fetch_failures_witness :
  map profile_name
      (AdminDashboard.allUsers
         (ui (state_of (AdminDashboard.fetchAllUsers
                          (dashboard_world [Served; Failed "timeout"]
                                           AdminDashboard.usersTab)))))
  = [""].
Proof.
  destruct (roster_fetch_failures "timeout" []
              (dashboard_world [Served; Failed "timeout"] AdminDashboard.usersTab))
    as [_ H].
  destruct (H eq_refl) as [E _]. rewrite E. reflexivity.
Defined.

(** X14: a fetch of the queue that is served shows exactly the pending
    requests of the store, newest first, and stops the loader; one answered
    by an error response leaves the queue on the screen as it was and stops
    the loader too. *)
Theorem queue_lists_pending_requests (w : World AdminDashboard.State) :
  (hd Served (net w) = Served ->
   AdminDashboard.requests (ui (state_of (AdminDashboard.fetchRequests w)))
   = pending_requests (db w)
   /\ Sorted newer_first (pending_requests (db w))
   /\ Permutation (pending_requests (db w)) (pending_rows (db w))
   /\ Forall (fun r => AccessRequest.status r = RequestStatus.pending)
             (pending_requests (db w))
   /\ AdminDashboard.loading (ui (state_of (AdminDashboard.fetchRequests w))) = false)
  /\ (forall e, hd Served (net w) = Failed e ->
      AdminDashboard.requests (ui (state_of (AdminDashboard.fetchRequests w)))
      = AdminDashboard.requests (ui w)
      /\ AdminDashboard.loading (ui (state_of (AdminDashboard.fetchRequests w)))
         = false).
Proof.
  destruct w as [d n t c a [tab rs us l al q]]. cbn [net db ui].
  assert (Permutation (pending_requests d) (pending_rows d)) as Hperm
    by apply order_by_perm.
  split.
  - intros H1. unfold AdminDashboard.fetchRequests, selectPendingRequests.
    unfold bind, ret, query, call. cbn. rewrite H1. cbn.
    split; [reflexivity|]. split; [apply newest_first_sorted|].
    split; [exact Hperm|]. split; [|reflexivity].
    apply Forall_forall. intros r Hr.
    apply (Permutation_in _ Hperm) in Hr. apply filter_In in Hr.
    apply status_eqb_eq. exact (proj2 Hr).
  - intros e H1. unfold AdminDashboard.fetchRequests, selectPendingRequests.
    unfold bind, ret, query, call. cbn. rewrite H1. cbn. split; reflexivity.
Qed.

(** X14 at the sample store: [carol]'s request is the queue. *)
Lemma queue_lists_pending_requests_witness :
  map AccessRequest.user_id
      (AdminDashboard.requests
         (ui (state_of (AdminDashboard.fetchRequests
                          (dashboard_world [] AdminDashboard.requestsTab)))))
  = ["carol"].
Proof.
  destruct (queue_lists_pending_requests
              (dashboard_world [] AdminDashboard.requestsTab)) as [H _].
  destruct (H eq_refl) as [E _]. rewrite E. reflexivity.
Defined.

Section OrderingAndFilter.
Context {A : Type} (le : A -> A -> bool) (p : A -> bool).
Hypothesis le_trans : forall a b c, le a b = true -> le b c = true -> le a c = true.
Hypothesis le_total : forall a b, le a b = false -> le b a = true.

Lemma insert_by_first (x : A) (l : list A) :
  (forall z, In z l -> le x z = true) -> insert_by le x l = x :: l.
Proof.
  destruct l as [|y l]; intros H; cbn; [reflexivity|].
  rewrite (H y) by (left; reflexivity). reflexivity.
Qed.

Lemma filter_insert_by (x : A) (l : list A) :
  StronglySorted (fun a b => le a b = true) l ->
  filter p (insert_by le x l)
  = if p x then insert_by le x (filter p l) else filter p l.
Proof.
  induction l as [|y l IH]; intros Hs.
  - cbn. destruct (p x); reflexivity.
  - inversion Hs as [|? ? Hl Hy]; subst. specialize (IH Hl).
    cbn [insert_by]. destruct (le x y) eqn:Exy.
    + cbn [filter]. destruct (p x) eqn:Epx; [|reflexivity].
      symmetry. apply insert_by_first. intros z Hz.
      destruct (p y).
      * destruct Hz as [<- | Hz]; [exact Exy|].
        apply filter_In in Hz. rewrite Forall_forall in Hy.
        exact (le_trans _ _ _ Exy (Hy z (proj1 Hz))).
      * apply filter_In in Hz. rewrite Forall_forall in Hy.
        exact (le_trans _ _ _ Exy (Hy z (proj1 Hz))).
    + cbn [filter]. rewrite IH.
      destruct (p y), (p x); cbn [insert_by]; rewrite ?Exy; reflexivity.
Qed.

(** Filtering an ordered selection is ordering the filtered rows. *)
Lemma filter_order_by (l : list A) :
  filter p (order_by le l) = order_by le (filter p l).
Proof.
  induction l as [|x l IH]; [reflexivity|].
  cbn [order_by fold_right]. fold (order_by le l).
  rewrite filter_insert_by.
  - cbn [filter]. destruct (p x); [|exact IH].
    cbn [order_by fold_right]. fold (order_by le (filter p l)). rewrite IH. reflexivity.
  - apply Sorted_StronglySorted.
    + intros a b c. apply le_trans.
    + apply order_by_sorted; [auto | exact le_total].
Qed.
End OrderingAndFilter.

(** The pending rows after a decision are the pending rows without the
    request decided. *)
Lemma pending_rows_after_decision (id : string) (decision : Decision.t)
    (l : list AccessRequest.t) :
  filter (fun r => RequestStatus.eqb (AccessRequest.status r) RequestStatus.pending)
         (map (fun r => if String.eqb (AccessRequest.id r) id
                        then AccessRequest.with_status (Decision.status decision) r
                        else r) l)
  = filter (fun r => negb (String.eqb (AccessRequest.id r) id))
           (filter (fun r => RequestStatus.eqb (AccessRequest.status r)
                                               RequestStatus.pending) l).
Proof.
  induction l as [|r l IH]; [reflexivity|].
  cbn [map filter].
  destruct (String.eqb (AccessRequest.id r) id) eqn:Eid.
  - replace (RequestStatus.eqb
               (AccessRequest.status
                  (AccessRequest.with_status (Decision.status decision) r))
               RequestStatus.pending) with false by (destruct decision; reflexivity).
    destruct (RequestStatus.eqb (AccessRequest.status r) RequestStatus.pending);
      cbn [filter]; rewrite ?Eid; exact IH.
  - destruct (RequestStatus.eqb (AccessRequest.status r) RequestStatus.pending);
      cbn [filter]; rewrite ?Eid; cbn [negb]; rewrite IH; reflexivity.
Qed.

Lemma role_step_keeps_requests (u : string) (decision : Decision.t) (d : Db) :
  access_requests (role_step u decision d) = access_requests d.
Proof. destruct decision; reflexivity. Qed.

(** X15: in the queue tab, a decision whose two calls are served removes
    the decided request from the queue on the screen, and the queue so
    patched is the one a new fetch would show, provided the queue showed
    the pending requests of the store before. *)
Theorem queue_patch_is_the_refetch (id u : string) (decision : Decision.t)
    (w : World AdminDashboard.State) :
  AdminDashboard.activeTab (ui w) = AdminDashboard.requestsTab ->
  AdminDashboard.requests (ui w) = pending_requests (db w) ->
  served 2 (net w) ->
  AdminDashboard.requests (ui (state_of (AdminDashboard.handleDecision id u decision w)))
  = pending_requests (db (state_of (AdminDashboard.handleDecision id u decision w)))
  /\ (forall r, In r (AdminDashboard.requests
                        (ui (state_of (AdminDashboard.handleDecision id u decision w)))) ->
                AccessRequest.id r <> id).
Proof.
  intros Htab Hreq Hs.
  rewrite handleDecision_db.
  apply served_step in Hs. destruct Hs as [H1 Hs].
  apply served_step in Hs. destruct Hs as [H2 _].
  rewrite H1, H2. cbn [decision_db].
  destruct w as [d n t c a [tab rs us l al q]]. cbn [net db ui] in *.
  cbn in Htab, Hreq. subst tab rs.
  assert (AdminDashboard.requests
            (ui (state_of (AdminDashboard.handleDecision id u decision
               (mkWorld d n t c a
                  (AdminDashboard.mkState AdminDashboard.requestsTab
                     (pending_requests d) us l al q)))))
          = filter (fun r => negb (String.eqb (AccessRequest.id r) id))
                   (pending_requests d)) as E.
  { unfold_dashboard. cbn. rewrite H1. cbn.
    destruct decision; cbn; rewrite H2; reflexivity. }
  rewrite E. split.
  - unfold pending_requests. rewrite role_step_keeps_requests.
    cbn [update_status access_requests set_access_requests].
    rewrite pending_rows_after_decision.
    apply filter_order_by.
    + intros x y z Hxy Hyz. apply N.leb_le in Hxy, Hyz. apply N.leb_le. lia.
    + intros x y Hxy. apply N.leb_gt in Hxy. apply N.leb_le. lia.
  - intros r Hr Hid. apply filter_In in Hr. destruct Hr as [_ Hb].
    rewrite Hid, String.eqb_refl in Hb. discriminate Hb.
Qed.

(** X15 at the sample store: [carol]'s request is approved and leaves the
    queue. *)
Lemma queue_patch_is_the_refetch_witness :
  AdminDashboard.requests
    (ui (state_of (AdminDashboard.handleDecision "req-carol" "carol" Decision.approved
                     (queue_world []))))
  = [].
Proof.
  destruct (queue_patch_is_the_refetch "req-carol" "carol" Decision.approved
              (queue_world []) eq_refl eq_refl (served_nil 2)) as [E _].
  rewrite E. reflexivity.
Defined.

(** X16: approving a request of a user who holds the admin row overwrites
    that row: after a served approval the user has one row, with role
    [member], and the role query of the resolver finds no admin row any
    more. *)
Theorem approval_overwrites_admin_row (id u : string)
    (w : World AdminDashboard.State) :
  has_admin_role (db w) u ->
  NoDup (map RoleRow.user_id (roles (db w))) ->
  served 2 (net w) ->
  rows_of RoleRow.user_id u
    (roles (db (state_of (AdminDashboard.handleDecision id u Decision.approved w))))
  = [RoleRow.mk u UserRole.member]
  /\ ~ has_admin_role
         (db (state_of (AdminDashboard.handleDecision id u Decision.approved w))) u
  /\ admin_rows u
       (db (state_of (AdminDashboard.handleDecision id u Decision.approved w)))
     = [].
Proof.
  intros _ ND Hs.
  rewrite handleDecision_db.
  apply served_step in Hs. destruct Hs as [H1 Hs].
  apply served_step in Hs. destruct Hs as [H2 _].
  rewrite H1, H2. cbn [decision_db role_step Decision.status].
  assert (rows_of RoleRow.user_id u
            (roles (upsert_role u UserRole.member
                      (update_status id RequestStatus.approved (db w))))
          = [RoleRow.mk u UserRole.member]) as E.
  { apply upsert_row_rows. exact ND. }
  assert (~ has_admin_role
              (upsert_role u UserRole.member
                 (update_status id RequestStatus.approved (db w))) u) as Hna.
  { intros Ha.
    assert (In (RoleRow.mk u UserRole.admin)
               (rows_of RoleRow.user_id u
                  (roles (upsert_role u UserRole.member
                            (update_status id RequestStatus.approved (db w))))))
      as Hin by (apply rows_of_In; split; [exact Ha | reflexivity]).
    rewrite E in Hin. destruct Hin as [Hin | []]. discriminate Hin. }
  split; [exact E|]. split; [exact Hna|].
  apply admin_rows_none. exact Hna.
Qed.

(** X16 at the sample store: a request of the admin [root] is approved. *)
Lemma approval_overwrites_admin_row_witness :
  rows_of RoleRow.user_id "root"
    (roles (db (state_of (AdminDashboard.handleDecision "req-root" "root"
                            Decision.approved
                            (dashboard_world [] AdminDashboard.requestsTab)))))
  = [RoleRow.mk "root" UserRole.member].
Proof.
  assert (NoDup (map RoleRow.user_id (roles sample_db))) as ND.
  { repeat constructor; cbn; intuition discriminate. }
  exact (proj1 (approval_overwrites_admin_row "req-root" "root"
                  (dashboard_world [] AdminDashboard.requestsTab)
                  (or_introl eq_refl) ND (served_nil 2))).
Defined.

(** X17: in the queue tab, when the status update is served and the call
    on [roles] is answered by an error response, the decision goes on as if
    it had succeeded: the status is changed and the roles are not, the
    request leaves the queue on the screen, and no notice is shown. *)
Theorem role_error_goes_unnoticed (id u e : string) (decision : Decision.t)
    (rest : list Fault) (w : World AdminDashboard.State) :
  AdminDashboard.activeTab (ui w) = AdminDashboard.requestsTab ->
  net w = Served :: Failed e :: rest ->
  db (state_of (AdminDashboard.handleDecision id u decision w))
  = update_status id (Decision.status decision) (db w)
  /\ roles (db (state_of (AdminDashboard.handleDecision id u decision w)))
     = roles (db w)
  /\ alerts (state_of (AdminDashboard.handleDecision id u decision w)) = alerts w
  /\ console (state_of (AdminDashboard.handleDecision id u decision w)) = console w
  /\ AdminDashboard.requests
       (ui (state_of (AdminDashboard.handleDecision id u decision w)))
     = filter (fun r => negb (String.eqb (AccessRequest.id r) id))
              (AdminDashboard.requests (ui w))
  /\ AdminDashboard.actionLoading
       (ui (state_of (AdminDashboard.handleDecision id u decision w)))
     = None.
Proof.
  destruct w as [d n t c a [tab rs us l al q]]. cbn [net db ui alerts console].
  cbn. intros -> ->. unfold_dashboard. cbn.
  destruct decision; cbn; repeat split; reflexivity.
Qed.

(** X17 at the sample store: [carol] is approved while the upsert of her
    role is refused. *)
Lemma role_error_goes_unnoticed_witness :
  map AccessRequest.status
      (access_requests
         (db (state_of (AdminDashboard.handleDecision "req-carol" "carol"
                          Decision.approved
                          (queue_world [Served; Failed "permission denied"])))))
  = [RequestStatus.approved; RequestStatus.approved]
  /\ roles (db (state_of (AdminDashboard.handleDecision "req-carol" "carol"
                            Decision.approved
                            (queue_world [Served; Failed "permission denied"]))))
     = roles sample_db.
Proof.
  destruct (role_error_goes_unnoticed "req-carol" "carol" "permission denied"
              Decision.approved [] (queue_world [Served; Failed "permission denied"])
              eq_refl eq_refl) as (Hdb & Hroles & _).
  split; [rewrite Hdb; reflexivity | exact Hroles].
Defined.

Lemma rows_of_upsert_other (u v : string) (r : UserRole.t) (l : list RoleRow.t) :
  v <> u ->
  rows_of RoleRow.user_id v (upsert_row u r l) = rows_of RoleRow.user_id v l.
Proof.
  intros Hv. unfold upsert_row, rows_of.
  destruct (existsb _ l).
  - induction l as [|row l IH]; [reflexivity|].
    cbn [map filter].
    destruct (String.eqb_spec (RoleRow.user_id row) u) as [E|E].
    + cbn [RoleRow.with_role RoleRow.user_id].
      destruct (String.eqb_spec (RoleRow.user_id row) v) as [E'|E'];
        [congruence | exact IH].
    + destruct (String.eqb (RoleRow.user_id row) v); rewrite IH; reflexivity.
  - rewrite filter_app. cbn.
    destruct (String.eqb_spec u v) as [E|E]; [congruence|]. apply app_nil_r.
Qed.

Lemma rows_of_delete_other (u v : string) (d : Db) :
  v <> u ->
  rows_of RoleRow.user_id v (roles (delete_role u d))
  = rows_of RoleRow.user_id v (roles d).
Proof.
  intros Hv. unfold delete_role, rows_of. cbn [roles set_roles].
  induction (roles d) as [|row l IH]; [reflexivity|].
  cbn [filter].
  destruct (String.eqb_spec (RoleRow.user_id row) u) as [E|E]; cbn [negb filter].
  - destruct (String.eqb_spec (RoleRow.user_id row) v) as [E'|E'];
      [congruence | exact IH].
  - destruct (String.eqb (RoleRow.user_id row) v); rewrite IH; reflexivity.
Qed.

(** X18: whatever the network does, a decision on a request of user [u]
    leaves the role rows of every other user, the profiles, the messages
    and the bucket as they were, and changes nothing of the requests but
    statuses: their ids, users, names, reasons and dates stay, in the same
    order. *)
Theorem decision_touches_one_user (id u v : string) (decision : Decision.t)
    (w : World AdminDashboard.State) :
  v <> u ->
  rows_of RoleRow.user_id v
    (roles (db (state_of (AdminDashboard.handleDecision id u decision w))))
  = rows_of RoleRow.user_id v (roles (db w))
  /\ profiles (db (state_of (AdminDashboard.handleDecision id u decision w)))
     = profiles (db w)
  /\ messages (db (state_of (AdminDashboard.handleDecision id u decision w)))
     = messages (db w)
  /\ bucket (db (state_of (AdminDashboard.handleDecision id u decision w)))
     = bucket (db w)
  /\ map (AccessRequest.with_status RequestStatus.pending)
         (access_requests (db (state_of (AdminDashboard.handleDecision id u decision w))))
     = map (AccessRequest.with_status RequestStatus.pending) (access_requests (db w)).
Proof.
  intros Hv. rewrite handleDecision_db.
  assert (map (AccessRequest.with_status RequestStatus.pending)
              (access_requests (update_status id (Decision.status decision) (db w)))
          = map (AccessRequest.with_status RequestStatus.pending)
                (access_requests (db w))) as Hreq.
  { cbn [update_status access_requests set_access_requests].
    rewrite map_map. apply map_ext. intros r.
    destruct (String.eqb (AccessRequest.id r) id); reflexivity. }
  unfold decision_db.
  destruct (hd Served (net w)); [|repeat split; reflexivity|repeat split; reflexivity].
  destruct (hd Served (tl (net w)));
    [|repeat split; try reflexivity; exact Hreq|repeat split; try reflexivity; exact Hreq].
  destruct decision; cbn [role_step].
  - split; [apply (rows_of_upsert_other u v UserRole.member); exact Hv|].
    repeat split; try reflexivity. exact Hreq.
  - split; [rewrite rows_of_delete_other by exact Hv; reflexivity|].
    repeat split; try reflexivity. exact Hreq.
Qed.

(** X18 at the sample store: rejecting [bob] leaves the row of [root]. *)
Lemma decision_touches_one_user_witness :
  rows_of RoleRow.user_id "root"
    (roles (db (state_of (AdminDashboard.handleDecision "req-bob" "bob"
                            Decision.rejected
                            (dashboard_world [] AdminDashboard.usersTab)))))
  = [RoleRow.mk "root" UserRole.admin].
Proof.
  assert ("root" <> "bob") as Hv by discriminate.
  destruct (decision_touches_one_user "req-bob" "bob" "root" Decision.rejected
              (dashboard_world [] AdminDashboard.usersTab) Hv) as [E _].
  rewrite E. reflexivity.
Defined.

(** X19: in the roster tab, when both calls of a decision are served and
    the request query of the re-fetch rejects, the store holds the new
    status and role, yet the failure notice is shown, and the loader that
    the re-fetch started keeps running. *)
Theorem rejected_refetch_reports_failure (id u e : string) (decision : Decision.t)
    (rest : list Fault) (w : World AdminDashboard.State) :
  AdminDashboard.activeTab (ui w) = AdminDashboard.usersTab ->
  net w = Served :: Served :: Rejected e :: rest ->
  db (state_of (AdminDashboard.handleDecision id u decision w))
  = role_step u decision (update_status id (Decision.status decision) (db w))
  /\ alerts (state_of (AdminDashboard.handleDecision id u decision w))
     = alerts w ++ ["Failed to update user status"]
  /\ AdminDashboard.loading
       (ui (state_of (AdminDashboard.handleDecision id u decision w))) = true
  /\ AdminDashboard.actionLoading
       (ui (state_of (AdminDashboard.handleDecision id u decision w))) = None.
Proof.
  destruct w as [d n t c a [tab rs us l al q]]. cbn [net db ui alerts].
  cbn. intros -> ->. unfold_dashboard. cbn.
  destruct decision; cbn; repeat split; reflexivity.
Qed.

(** X19 at the sample store: [bob] is suspended while the re-fetch
    rejects. *)
Lemma rejected_refetch_reports_failure_witness :
  alerts (state_of (AdminDashboard.handleDecision "req-bob" "bob" Decision.rejected
                      (dashboard_world [Served; Served; Rejected "offline"]
                                       AdminDashboard.usersTab)))
  = ["Failed to update user status"]
  /\ rows_of RoleRow.user_id "bob"
       (roles (db (state_of (AdminDashboard.handleDecision "req-bob" "bob"
                               Decision.rejected
                               (dashboard_world [Served; Served; Rejected "offline"]
                                                AdminDashboard.usersTab)))))
     = [].
Proof.
  destruct (rejected_refetch_reports_failure "req-bob" "bob" "offline"
              Decision.rejected []
              (dashboard_world [Served; Served; Rejected "offline"]
                               AdminDashboard.usersTab)
              eq_refl eq_refl) as (Hdb & Hal & _).
  split; [rewrite Hal; reflexivity | rewrite Hdb; reflexivity].
Defined.

(* ================================================================== *)
(** * Further properties: the resolver and its screens *)
(* ================================================================== *)

(** Runs the resolver under every behaviour of the network. *)
Ltac crunch_any :=
  repeat (cbn;
          match goal with
          | H : ?r = _ |- context [match data ?r with _ => _ end] => rewrite H
          | |- context [match hd Served ?n with _ => _ end] => destruct (hd Served n)
          | |- context [match data ?r with _ => _ end] =>
              destruct r as [[?|] ?] eqn:?
          | |- context [match AccessRequest.status ?r with _ => _ end] =>
              destruct (AccessRequest.status r)
          end); cbn.

(** X20: whatever the network does, a resolution only reads: the store is
    as before, no notice is shown, the session stays, and the calls issued
    are the role query followed by at most two more. *)
Theorem resolver_only_reads (view0 : AppState.t) (u : string) (w : World App.State) :
  db (state_of (App.determineView view0 u w)) = db w
  /\ alerts (state_of (App.determineView view0 u w)) = alerts w
  /\ App.session (ui (state_of (App.determineView view0 u w))) = App.session (ui w)
  /\ exists more,
       trace (state_of (App.determineView view0 u w))
       = trace w ++ SelectAdminRole u :: more
       /\ length more <= 2.
Proof.
  destruct w as [d n t c a [s v p r]]. cbn [db alerts ui trace App.session].
  unfold_app.
  destruct (AppState.eqb view0 AppState.auth); crunch_any;
    (split; [reflexivity|]; split; [reflexivity|]; split; [reflexivity|];
     rewrite <- ?app_assoc; cbn [app]; eexists; split; [reflexivity | cbn; lia]).
Qed.

(** X21: whatever the network does, after a session change with a session
    the screen is a proper one: never the loader, never the unknown-state
    text, never a render error; and the chat is shown with a profile and
    with the way back to the dashboard exactly for the role admin. *)
Theorem session_change_shows_a_screen (u : string) (w : World App.State) :
  App.render (ui (state_of (App.onAuthStateChange (Some u) w))) <> App.Loader
  /\ App.render (ui (state_of (App.onAuthStateChange (Some u) w))) <> App.UnknownState
  /\ App.render (ui (state_of (App.onAuthStateChange (Some u) w))) <> App.RenderError
  /\ (forall user p role back,
        App.render (ui (state_of (App.onAuthStateChange (Some u) w)))
        = App.ChatScreen user p role back ->
        user = u /\ (back = true <-> role = UserRole.admin)).
Proof.
  destruct w as [d n t c a [s v p r]].
  unfold App.onAuthStateChange, App.setSession, modify_ui. unfold bind at 1. cbn.
  unfold_app.
  crunch_any; unfold App.render; cbn;
    try (destruct v; cbn);
    (split; [discriminate|]; split; [discriminate|]; split; [discriminate|];
     intros user p' role back H;
     first [ discriminate H
           | inversion H; subst; split; [reflexivity | split; congruence] ]).
Qed.

(** X22: a user without admin row who has several requests is shown the
    request form again, whatever their statuses: the selection of a single
    row answers with an error and the resolver reads it as no request. *)
Theorem several_requests_show_the_form (view0 : AppState.t) (u : string)
    (w : World App.State) :
  served 2 (net w) ->
  admin_rows u (db w) = [] ->
  2 <= length (request_rows u (db w)) ->
  view_after view0 u w = AppState.request.
Proof.
  destruct w as [d n t c a [s v p r]]. cbn [net db].
  intros Hs Ha Hlen.
  apply served_step in Hs. destruct Hs as [H1 Hs].
  apply served_step in Hs. destruct Hs as [H2 _].
  unfold_app.
  destruct (request_rows u d) as [|r1 [|r2 rs]] eqn:Er; cbn in Hlen; try lia.
  destruct (AppState.eqb view0 AppState.auth); cbn;
    rewrite H1; cbn; rewrite Ha; cbn; rewrite H2; cbn; rewrite Er; reflexivity.
Qed.

(** X23: when no call rejects, the resolver logs nothing and never falls
    back to the sign-in view; when the role query rejects, or the second
    call after an answered role query, it logs the error and shows the
    sign-in view, with the profile it held before. *)
Theorem resolver_fallback (view0 : AppState.t) (u : string) (w : World App.State) :
  (Forall answered (net w) ->
   view_after view0 u w <> AppState.auth
   /\ console (state_of (App.determineView view0 u w)) = console w)
  /\ (forall f e rest,
        net w = Rejected e :: rest \/ (answered f /\ net w = f :: Rejected e :: rest) ->
        view_after view0 u w = AppState.auth
        /\ console (state_of (App.determineView view0 u w))
           = console w ++ ["State determination error:"]
        /\ App.userProfile (ui (state_of (App.determineView view0 u w)))
           = App.userProfile (ui w)).
Proof.
  destruct w as [d n t c a [s v p r]]. cbn [net console ui].
  split.
  - intros Hall.
    assert (answered (hd Served n) /\ answered (hd Served (tl n))
            /\ answered (hd Served (tl (tl n)))) as (A1 & A2 & A3).
    { destruct n as [|f1 [|f2 [|f3 n]]]; cbn; repeat split; try exact I;
        repeat match goal with
               | H : Forall _ (_ :: _) |- _ => inversion H; subst; clear H
               end; assumption. }
    unfold_app.
    destruct (AppState.eqb view0 AppState.auth); crunch_any;
      try contradiction; (split; [try discriminate | reflexivity]);
      destruct v; cbn; discriminate.
  - intros f e rest [-> | [Hf ->]]; unfold_app.
    + destruct (AppState.eqb view0 AppState.auth); cbn; repeat split; reflexivity.
    + destruct f as [|e'|e']; [| |contradiction];
        destruct (AppState.eqb view0 AppState.auth); crunch_any;
        repeat split; reflexivity.
Qed.

(* ================================================================== *)
(** * Further properties: the request form and the profile form *)
(* ================================================================== *)

(** The selections stay folded while the forms run. *)
Arguments admin_rows : simpl never.
Arguments request_rows : simpl never.
Arguments profile_rows : simpl never.

Ltac unfold_async :=
  unfold detached, storageUpload, mutate, call, bind, try_catch, try_finally,
    throw, ret, get_ui, console_error, alert, modify_ui.

(** X24: a user without admin row and without request submits the form,
    the insert and the two queries of the resolver served: the store gains
    one request of that user, pending, with the name and the reason typed,
    and the application moves to the pending screen, the form left without
    error and not busy. *)
Theorem submitted_request_is_pending (u : string)
    (w : World (AccessRequestForm.State * App.State)) :
  served 3 (net w) ->
  admin_rows u (db w) = [] ->
  request_rows u (db w) = [] ->
  (exists r,
     request_rows u (db (state_of (submitRequest u w))) = [r]
     /\ access_requests (db (state_of (submitRequest u w)))
        = access_requests (db w) ++ [r]
     /\ AccessRequest.status r = RequestStatus.pending
     /\ AccessRequest.name r = AccessRequestForm.name (fst (ui w))
     /\ AccessRequest.reason r = AccessRequestForm.reason (fst (ui w)))
  /\ App.view (snd (ui (state_of (submitRequest u w)))) = AppState.pending
  /\ AccessRequestForm.error (fst (ui (state_of (submitRequest u w)))) = ""
  /\ AccessRequestForm.loading (fst (ui (state_of (submitRequest u w)))) = false.
Proof.
  intros Hs Ha Hr.
  apply served_step in Hs. destruct Hs as [H1 Hs].
  apply served_step in Hs. destruct Hs as [H2 Hs].
  apply served_step in Hs. destruct Hs as [H3 _].
  destruct w as [d n t c a [[nm rs l er] [s v p r]]]. cbn [net db ui fst snd] in *.
  assert (request_rows u (insert_access_request u nm rs d)
          = [AccessRequest.mk ("uuid-" ++ decimal (uuids d))%string u nm rs
                              RequestStatus.pending (clock d)]) as Hrows.
  { unfold request_rows in *. unfold insert_access_request.
    cbn [access_requests tick set_access_requests].
    rewrite filter_app, Hr. cbn. rewrite String.eqb_refl. reflexivity. }
  unfold submitRequest, AccessRequestForm.handleSubmit;
  unfold AccessRequestForm.setLoading, AccessRequestForm.setError, in_parent,
    insertAccessRequest; unfold_async.
  cbn. rewrite H1. cbn.
  unfold_app. cbn. rewrite H2. cbn.
  change (admin_rows u ?x) with (admin_rows u d).
  rewrite Ha. cbn. rewrite H3. cbn.
  rewrite Hrows. cbn.
  split; [|repeat split; reflexivity].
  eexists. split; [exact Hrows|]. repeat split; reflexivity.
Qed.

(** X24 at the sample store: [dave] submits his request. *)
Lemma submitted_request_is_pending_witness :
  App.view (snd (ui (state_of (submitRequest "dave" (request_form_world [])))))
  = AppState.pending.
Proof.
  exact (proj1 (proj2 (submitted_request_is_pending "dave" (request_form_world [])
                         (served_nil 3) eq_refl eq_refl))).
Defined.

(** X25: when the insert of the request fails, by an error response or by
    a rejected promise with message [e], the store is untouched, the
    resolver is not called (the insert is the only call and the state of
    the application stays), and the form shows the message, or
    ['Failed to submit request'] when the message is empty, and is not
    busy. *)
Theorem failed_request_shows_error (u e : string)
    (w : World (AccessRequestForm.State * App.State)) :
  hd Served (net w) = Failed e \/ hd Served (net w) = Rejected e ->
  db (state_of (submitRequest u w)) = db w
  /\ trace (state_of (submitRequest u w))
     = trace w ++ [InsertAccessRequest u (AccessRequestForm.name (fst (ui w)))
                                       (AccessRequestForm.reason (fst (ui w)))]
  /\ snd (ui (state_of (submitRequest u w))) = snd (ui w)
  /\ AccessRequestForm.error (fst (ui (state_of (submitRequest u w))))
     = (if String.eqb e "" then "Failed to submit request" else e)
  /\ AccessRequestForm.loading (fst (ui (state_of (submitRequest u w)))) = false.
Proof.
  destruct w as [d n t c a [[nm rs l er] [s v p r]]]. cbn [net db ui fst snd trace].
  intros [H | H];
    unfold submitRequest, AccessRequestForm.handleSubmit;
    unfold AccessRequestForm.setLoading, AccessRequestForm.setError, in_parent,
      insertAccessRequest; unfold_async;
    cbn; rewrite H; cbn; repeat split; reflexivity.
Qed.

(** X25 at the sample store: the insert of [dave]'s request is refused. *)
Lemma failed_request_shows_error_witness :
  AccessRequestForm.error
    (fst (ui (state_of (submitRequest "dave"
                          (request_form_world [Failed "permission denied"])))))
  = "permission denied"
  /\ App.view (snd (ui (state_of (submitRequest "dave"
                          (request_form_world [Failed "permission denied"])))))
     = AppState.request.
Proof.
  destruct (failed_request_shows_error "dave" "permission denied"
              (request_form_world [Failed "permission denied"])
              (or_introl eq_refl)) as (_ & _ & Hp & He & _).
  split; [rewrite He | rewrite Hp]; reflexivity.
Defined.


Lemma profile_rows_present (u : string) (d : Db) :
  has_profile d u ->
  existsb (fun p => String.eqb (Profile.user_id p) u) (profiles d) = true.
Proof.
  intros (p & Hin & Hu). apply existsb_exists. exists p.
  split; [exact Hin | apply String.eqb_eq; exact Hu].
Qed.



(** X27: when the upload of the avatar fails, by an error response or by a
    rejected promise, no profile is inserted (the upload is the only call),
    the store is untouched, the notice ['Error creating profile'] is shown,
    the application stays where it was and the form is not busy. *)
Theorem failed_avatar_upload_alerts (url u rnd e : string) (f : File)
    (w : World (CreateProfile.State * App.State)) :
  CreateProfile.file (fst (ui w)) = Some f ->
  hd Served (net w) = Failed e \/ hd Served (net w) = Rejected e ->
  db (state_of (submitProfile url u rnd w)) = db w
  /\ trace (state_of (submitProfile url u rnd w))
     = trace w ++ [StorageUpload ("avatars/" ++ u ++ "-" ++ rnd ++ "."
                                  ++ fileExt (file_name f))%string]
  /\ alerts (state_of (submitProfile url u rnd w))
     = alerts w ++ ["Error creating profile"]
  /\ snd (ui (state_of (submitProfile url u rnd w))) = snd (ui w)
  /\ CreateProfile.loading (fst (ui (state_of (submitProfile url u rnd w)))) = false.
Proof.
  destruct w as [d n t c a [[nm bi fl l] [s v p ro]]].
  cbn [net db ui fst snd alerts trace CreateProfile.file].
  intros -> [H | H];
    unfold submitProfile, CreateProfile.handleSubmit;
    unfold CreateProfile.setLoading, in_parent, insertProfile; unfold_async;
    cbn; rewrite H; cbn; repeat split; reflexivity.
Qed.

(** X27 at the sample store: the bucket refuses [erin]'s avatar. *)
Lemma failed_avatar_upload_alerts_witness :
  alerts (state_of (submitProfile sample_url "erin" "0.25"
                      (profile_form_world [Failed "bucket not found"]
                                          (Some sample_file))))
  = ["Error creating profile"]
  /\ profiles (db (state_of (submitProfile sample_url "erin" "0.25"
                               (profile_form_world [Failed "bucket not found"]
                                                   (Some sample_file)))))
     = profiles erin_db.
Proof.
  destruct (failed_avatar_upload_alerts sample_url "erin" "0.25" "bucket not found"
              sample_file
              (profile_form_world [Failed "bucket not found"] (Some sample_file))
              eq_refl (or_introl eq_refl)) as (Hdb & _ & Hal & _).
  split; [rewrite Hal | rewrite Hdb]; reflexivity.
Defined.

(** X28: a user who already has a profile row and submits the profile
    form without a file, the insert served, is refused by the uniqueness of
    [user_id]: the profiles are as before, the notice
    ['Error creating profile'] is shown and the resolver is not called. *)
Theorem second_profile_is_refused (url u rnd : string)
    (w : World (CreateProfile.State * App.State)) :
  CreateProfile.file (fst (ui w)) = None ->
  hd Served (net w) = Served ->
  has_profile (db w) u ->
  db (state_of (submitProfile url u rnd w)) = db w
  /\ alerts (state_of (submitProfile url u rnd w))
     = alerts w ++ ["Error creating profile"]
  /\ trace (state_of (submitProfile url u rnd w))
     = trace w ++ [InsertProfile u (CreateProfile.username (fst (ui w)))
                                 (CreateProfile.bio (fst (ui w))) ""]
  /\ snd (ui (state_of (submitProfile url u rnd w))) = snd (ui w).
Proof.
  intros Hf H1 Hp.
  pose proof (profile_rows_present u (db w) Hp) as Hex.
  destruct w as [d n t c a [[nm bi fl l] [s v p ro]]].
  cbn [net db ui fst snd alerts trace CreateProfile.file] in *. subst fl.
  unfold submitProfile, CreateProfile.handleSubmit;
  unfold CreateProfile.setLoading, in_parent, insertProfile; unfold_async.
  cbn. rewrite H1. cbn. unfold insert_profile. rewrite Hex. cbn.
  repeat split; reflexivity.
Qed.

(** X28 at the sample store: [bob], who has a profile, submits the form. *)
Lemma second_profile_is_refused_witness :
  profiles (db (state_of (submitProfile sample_url "bob" "0.5"
                            (profile_form_world [] None))))
  = profiles erin_db.
Proof.
  assert (has_profile (db (profile_form_world [] None)) "bob") as Hp.
  { eexists. split; [left; reflexivity | reflexivity]. }
  destruct (second_profile_is_refused sample_url "bob" "0.5"
              (profile_form_world [] None) eq_refl eq_refl Hp) as (Hdb & _).
  rewrite Hdb. reflexivity.
Defined.

Lemma upsert_row_role (u : string) (r : UserRole.t) (l : list RoleRow.t)
    (row : RoleRow.t) :
  In row (upsert_row u r l) -> RoleRow.user_id row = u -> RoleRow.role row = r.
Proof.
  unfold upsert_row. destruct (existsb _ l) eqn:E; intros Hin Hu.
  - apply in_map_iff in Hin. destruct Hin as (x & <- & Hx).
    destruct (String.eqb_spec (RoleRow.user_id x) u) as [Ex|Ex];
      [reflexivity | contradiction].
  - apply in_app_or in Hin. destruct Hin as [Hin | [<- | []]]; [|reflexivity].
    exfalso. exact (existsb_user_absent u l E row Hin Hu).
Qed.

(** X29: the admin approves the one request of a user without profile,
    the calls served: the next resolution for that user, its queries
    served, shows the profile form, whatever role row the user had. *)
Theorem approved_user_gets_profile_form (id u : string) (r : AccessRequest.t)
    (view0 : AppState.t)
    (wa : World AdminDashboard.State) (wu : World App.State) :
  request_rows u (db wa) = [r] ->
  AccessRequest.id r = id ->
  profile_rows u (db wa) = [] ->
  served 2 (net wa) ->
  served 3 (net wu) ->
  view_after view0 u
    (with_db (db (state_of (AdminDashboard.handleDecision id u Decision.approved wa)))
             wu)
  = AppState.profile.
Proof.
  intros Hr Hid Hp Hs Hu.
  rewrite handleDecision_db.
  apply served_step in Hs. destruct Hs as [H1 Hs].
  apply served_step in Hs. destruct Hs as [H2 _].
  rewrite H1, H2. cbn [decision_db role_step Decision.status].
  set (d' := upsert_role u UserRole.member
               (update_status id RequestStatus.approved (db wa))).
  assert (admin_rows u d' = []) as Ha.
  { apply admin_rows_none. intros Hin.
    pose proof (upsert_row_role u UserRole.member _ _ Hin eq_refl) as Hrole.
    discriminate Hrole. }
  assert (request_rows u d' = [AccessRequest.with_status RequestStatus.approved r])
    as Hr'.
  { change (request_rows u d')
      with (request_rows u (update_status id RequestStatus.approved (db wa))).
    rewrite request_rows_update_status, Hr. cbn.
    rewrite Hid, String.eqb_refl. reflexivity. }
  assert (profile_rows u d' = []) as Hp' by exact Hp.
  clearbody d'.
  apply served_step in Hu. destruct Hu as [U1 Hu].
  apply served_step in Hu. destruct Hu as [U2 Hu].
  apply served_step in Hu. destruct Hu as [U3 _].
  destruct wu as [d n t c a [s v p ro]]. cbn [net] in *.
  unfold with_db. cbn [net trace console alerts ui].
  unfold_app.
  destruct (AppState.eqb view0 AppState.auth); cbn;
    rewrite U1; cbn; rewrite Ha; cbn; rewrite U2; cbn; rewrite Hr'; cbn;
    rewrite U3; cbn; rewrite Hp'; reflexivity.
Qed.

(** X29 at the sample store: [carol], pending and without profile, is
    approved. *)
Lemma approved_user_gets_profile_form_witness :
  view_after AppState.loading "carol" (app_world [] AppState.pending) = AppState.pending
  /\ view_after AppState.loading "carol"
       (with_db (db (state_of (AdminDashboard.handleDecision "req-carol" "carol"
                                 Decision.approved (queue_world []))))
                (app_world [] AppState.pending))
     = AppState.profile.
Proof.
  split; [reflexivity|].
  apply (approved_user_gets_profile_form "req-carol" "carol"
           (AccessRequest.mk "req-carol" "carol" "Carol" "to read"
                             RequestStatus.pending 11%N)
           AppState.loading (queue_world []) (app_world [] AppState.pending)
           eq_refl eq_refl eq_refl (served_nil 2) (served_nil 3)).
Defined.

(** X22 at a store where [bob] has two approved requests. *)
Lemma several_requests_show_the_form_witness :
  view_after AppState.loading "bob"
    (with_db (insert_access_request "bob" "Bob" "again" sample_db)
             (app_world [] AppState.chat))
  = AppState.request.
Proof.
  apply several_requests_show_the_form.
  - apply served_nil.
  - reflexivity.
  - vm_compute. lia.
Defined.

(** X23 at the sample store: the role query of [root] rejects. *)
Lemma resolver_fallback_witness :
  view_after AppState.loading "root" (app_world [Rejected "offline"] AppState.chat)
  = AppState.auth
  /\ view_after AppState.loading "bob" (app_world [Failed "timeout"] AppState.loading)
     <> AppState.auth.
Proof.
  destruct (resolver_fallback AppState.loading "root"
              (app_world [Rejected "offline"] AppState.chat)) as [_ Hrej].
  destruct (resolver_fallback AppState.loading "bob"
              (app_world [Failed "timeout"] AppState.loading)) as [Hans _].
  split.
  - exact (proj1 (Hrej Served "offline" [] (or_introl eq_refl))).
  - apply Hans. repeat constructor.
Defined.

(** X21 at the sample store: [bob] signs in and is shown the chat. *)
Lemma session_change_shows_a_screen_witness :
  App.render (ui (state_of (App.onAuthStateChange (Some "bob")
                              (app_world [] AppState.auth))))
  <> App.Loader
  /\ App.render (ui (state_of (App.onAuthStateChange (Some "bob")
                                 (app_world [] AppState.auth))))
     = App.ChatScreen "bob" (Profile.mk "p-bob" "bob" "bobby" "hello" None)
                      UserRole.member false.
Proof.
  split; [|reflexivity].
  exact (proj1 (session_change_shows_a_screen "bob" (app_world [] AppState.auth))).
Defined.


